(** * CollabCanva tile-sheet scripts: a shallow embedding

    The repository holds stand-alone Python scripts that cut 16x16 tiles out
    of a sprite sheet with Pillow and write them back to disk:

    - [extract_tiles.py]          4x4 grid -> one 256x16 strip per tileset
    - [extract_tiles_correct.py]  grid in tile coordinates -> 16 numbered files
    - [split_tiles.py]            256x16 strip -> 16 numbered files

    Python [int]s are [Z], Python lists are [list], [str] is [string].
    The file system, the console and the current directory form the
    [World] that every script threads through; an uncaught Python
    exception is the [Raise] outcome of the [Py] monad. *)

From stdpp Require Import gmap strings list.
From Stdlib Require Import ZArith Lia Ascii DecimalString.

Open Scope Z_scope.

(** ** Python built-ins used by the scripts *)

(** [range(n)] and [range(a, b)] *)
Definition range (n : Z) : list Z := map Z.of_nat (seq 0 (Z.to_nat n)).
Definition range2 (a b : Z) : list Z := map (fun i => a + i) (range (b - a)).

(** [str(n)] for an [int] *)
Definition str (n : Z) : string := NilZero.string_of_int (Z.to_int n).

(** The format specification [{n:02d}]: at least two characters, padded on
    the left with zeros. *)
Definition format_02d (n : Z) : string :=
  let s := str n in
  if (String.length s <? 2)%nat then ("0" +:+ s)%string else s.


(** [len(l)] *)
Definition len {A} (l : list A) : Z := Z.of_nat (length l).

(** The newline character of ["\n"] inside a string literal. *)
Definition nl : string := String (Ascii.ascii_of_nat 10) EmptyString.

(** ** Pillow images

    Every image the scripts handle is an RGBA raster: a width, a height, and
    the pixels row by row.  Only the three operations the scripts call are
    modelled, with Pillow's semantics: [Image.new], [Image.crop] (a box that
    leaves the image is NOT an error: the missing pixels are transparent
    black) and [Image.paste] (clipped to the destination). *)

Module PIL.

Definition pixel : Type := Z * Z * Z * Z.

Definition transparent : pixel := (0, 0, 0, 0).

Record Image := mkImage { width : Z; height : Z; data : list pixel }.

Definition size (im : Image) : Z * Z := (width im, height im).

Definition inside (im : Image) (x y : Z) : bool :=
  (0 <=? x) && (x <? width im) && (0 <=? y) && (y <? height im).

(** The pixel stored at [(x, y)]; transparent black off the raster, which
    is how the C core of Pillow fills a crop that leaves the image. *)
Definition pixel_at (im : Image) (x y : Z) : pixel :=
  if inside im x y
  then nth (Z.to_nat (y * width im + x)) (data im) transparent
  else transparent.

(** A [w] x [h] raster whose pixel at [(x, y)] is [f x y]. *)
Definition raster (w h : Z) (f : Z -> Z -> pixel) : Image :=
  mkImage (Z.max 0 w) (Z.max 0 h)
          (flat_map (fun y => map (fun x => f x y) (range w)) (range h)).

(** [Image.new('RGBA', (w, h), colour)] *)
Definition new (sz : Z * Z) (colour : pixel) : Image :=
  raster (fst sz) (snd sz) (fun _ _ => colour).

(** [im.crop((x0, y0, x1, y1))]: left, upper, right, lower.  The scripts
    only ever pass [x1 = x0 + TILE_SIZE] and [y1 = y0 + TILE_SIZE]. *)
Definition crop (im : Image) (box : Z * Z * Z * Z) : Image :=
  let '(x0, y0, x1, y1) := box in
  raster (x1 - x0) (y1 - y0) (fun x y => pixel_at im (x0 + x) (y0 + y)).

(** [dst.paste(src, (x0, y0))]: the pixels of [src] replace those of
    [dst] under it.  Python mutates [dst]; here the new value is
    returned. *)
Definition paste (dst src : Image) (at_ : Z * Z) : Image :=
  let '(x0, y0) := at_ in
  raster (width dst) (height dst)
         (fun x y => if inside src (x - x0) (y - y0)
                     then pixel_at src (x - x0) (y - y0)
                     else pixel_at dst x y).

(** [im.convert('RGBA')] is the identity on an RGBA raster. *)
Definition convert_RGBA (im : Image) : Image := im.

(** A raster is well formed when it stores exactly [width * height]
    pixels. *)
Definition wf (im : Image) : Prop :=
  0 <= width im /\ 0 <= height im /\
  length (data im) = (Z.to_nat (width im) * Z.to_nat (height im))%nat.

(** A well-formed 16x16 tile. *)
Definition tile16 (t : Image) : Prop := wf t /\ size t = (16, 16).

(** The box lies within the raster. *)
Definition box_inside (im : Image) (box : Z * Z * Z * Z) : bool :=
  let '(x0, y0, x1, y1) := box in
  (0 <=? x0) && (x1 <=? width im) && (0 <=? y0) && (y1 <=? height im).

End PIL.

(** ** The world of a script and the [Py] monad

    [files] holds the image files, [dirs] the directories, [trace] what the
    script has done so far, oldest event first: every [print], every
    [Image.save] and every [os.makedirs].  Reading a path that holds no
    image fails as in Python; writing is taken to succeed (a full disk or a
    missing permission is not part of the model). *)

Inductive exn : Type :=
| FileNotFoundError (path : string)
| IsADirectoryError (path : string)
| FileExistsError (path : string)
| IndexError.

Inductive event : Type :=
| Printed (line : string)
| Saved (path : string) (im : PIL.Image)
| MadeDirs (path : string).

Record World := mkWorld {
  files : gmap string PIL.Image;
  dirs : gset string;
  cwd : string;
  trace : list event
}.

Inductive outcome (A : Type) : Type :=
| Ok (a : A)
| Raise (e : exn).
Arguments Ok {A} a.
Arguments Raise {A} e.

Definition Py (A : Type) : Type := World -> outcome A * World.

Definition ret {A} (a : A) : Py A := fun w => (Ok a, w).

Definition raise {A} (e : exn) : Py A := fun w => (Raise e, w).

Definition bind {A B} (m : Py A) (k : A -> Py B) : Py B :=
  fun w => match m w with
           | (Ok a, w') => k a w'
           | (Raise e, w') => (Raise e, w')
           end.

Notation "x <- m ;; k" := (bind m (fun x => k))
  (at level 100, m at next level, right associativity).
Notation "m ;; k" := (bind m (fun _ => k))
  (at level 100, right associativity).

(** [for x in l: body(x)] *)
Fixpoint for_ {A} (l : list A) (body : A -> Py unit) : Py unit :=
  match l with
  | [] => ret tt
  | x :: l' => body x;; for_ l' body
  end.

(** A [for] loop that updates one local variable of type [S]. *)
Fixpoint for_with {A S} (l : list A) (s : S) (body : S -> A -> Py S) : Py S :=
  match l with
  | [] => ret s
  | x :: l' => s' <- body s x;; for_with l' s' body
  end.

Definition log (e : event) (w : World) : World :=
  mkWorld (files w) (dirs w) (cwd w) (trace w ++ [e]).

(** [print(line)] *)
Definition print (line : string) : Py unit :=
  fun w => (Ok tt, log (Printed line) w).

(** [l[i]] *)
Definition getitem {A} (l : list A) (i : Z) : Py A :=
  let j := if i <? 0 then len l + i else i in
  if j <? 0 then raise IndexError
  else match l !! Z.to_nat j with
       | Some a => ret a
       | None => raise IndexError
       end.

(** [enumerate(l)] *)
Definition enumerate {A} (l : list A) : list (Z * A) := zip (range (len l)) l.

(** [s * n] on strings *)
Definition str_times (s : string) (n : Z) : string :=
  fold_right (fun _ acc => (s +:+ acc)%string) ""%string (range n).

(** [str((a, b))] *)
Definition str_pair (p : Z * Z) : string :=
  ("(" +:+ str (fst p) +:+ ", " +:+ str (snd p) +:+ ")")%string.

(** The exit status of the interpreter: 0 when the script runs to its end,
    1 when an exception reaches the top level. *)
Definition exit_status {A} (o : outcome A) : Z :=
  match o with
  | Ok _ => 0
  | Raise _ => 1
  end.

Definition run_script (main : Py unit) (w : World) : Z * World :=
  let '(o, w') := main w in (exit_status o, w').

(** The files a script has written so far, in the order of the [save]
    calls, and the lines it has printed. *)
Definition saved_in (t : list event) : list (string * PIL.Image) :=
  omap (fun e => match e with Saved p im => Some (p, im) | _ => None end) t.

Definition saved (w : World) : list (string * PIL.Image) := saved_in (trace w).

Definition printed (w : World) : list string :=
  omap (fun e => match e with Printed line => Some line | _ => None end) (trace w).

(** [yields m w o l]: started in world [w], the computation [m] ends with
    outcome [o] after saving exactly the files [l], in this order. *)
Definition yields {A} (m : Py A) (w : World) (o : outcome A)
           (l : list (string * PIL.Image)) : Prop :=
  exists w', m w = (o, w') /\ saved w' = saved w ++ l.

(** [touches P w w']: world [w'] is world [w] after some more events, and
    the two differ at most at the paths in [P]. *)
Definition touches (P : string -> Prop) (w w' : World) : Prop :=
  (exists evs, trace w' = trace w ++ evs) /\
  (forall p, ~ P p -> files w' !! p = files w !! p /\ (p ∈ dirs w' <-> p ∈ dirs w)).

(** [frames P m]: the computation [m] changes the disk at most at the paths
    in [P]. *)
Definition frames {A} (P : string -> Prop) (m : Py A) : Prop :=
  forall w o w', m w = (o, w') -> touches P w w'.

(** A path that is neither a file nor a directory. *)
Definition missing (p : string) (w : World) : Prop :=
  files w !! p = None /\ p ∉ dirs w.

(** ** The [os] and [PIL.Image] calls that touch the world *)

Module os.

Definition getcwd : Py string := fun w => (Ok (cwd w), w).

Definition makedirs (path : string) (exist_ok : bool) : Py unit :=
  fun w =>
    if bool_decide (is_Some (files w !! path)) then (Raise (FileExistsError path), w)
    else if bool_decide (path ∈ dirs w) then
      if exist_ok then (Ok tt, w) else (Raise (FileExistsError path), w)
    else (Ok tt, log (MadeDirs path)
                     (mkWorld (files w) ({[path]} ∪ dirs w) (cwd w) (trace w))).

Module path.

Definition exists_ (p : string) : Py bool :=
  fun w => (Ok (bool_decide (is_Some (files w !! p)) || bool_decide (p ∈ dirs w)), w).

Definition startswith_slash (s : string) : bool :=
  match s with
  | String c _ => bool_decide (c = "/"%char)
  | EmptyString => false
  end.

Fixpoint endswith_slash (s : string) : bool :=
  match s with
  | EmptyString => false
  | String c EmptyString => bool_decide (c = "/"%char)
  | String _ s' => endswith_slash s'
  end.

(** [posixpath.join(a, b)] *)
Definition join (a b : string) : string :=
  if startswith_slash b then b
  else if bool_decide (a = ""%string) || endswith_slash a then (a +:+ b)%string
  else (a +:+ "/" +:+ b)%string.

End path.

End os.

Module Image.

(** [Image.open(path)] *)
Definition open (path : string) : Py PIL.Image :=
  fun w => match files w !! path with
           | Some im => (Ok im, w)
           | None => if bool_decide (path ∈ dirs w)
                     then (Raise (IsADirectoryError path), w)
                     else (Raise (FileNotFoundError path), w)
           end.

(** [im.save(path)] *)
Definition save (im : PIL.Image) (path : string) : Py unit :=
  fun w => (Ok tt, log (Saved path im)
                       (mkWorld (<[path := im]> (files w)) (dirs w) (cwd w) (trace w))).

End Image.

Local Open Scope string_scope.
Local Open Scope list_scope.
Local Open Scope Z_scope.

(** ** [extract_tiles_correct.py] *)

Module ExtractTilesCorrect.

Definition TILE_SIZE : Z := 16.
Definition MARGIN : Z := 1.
Definition TILE_STEP : Z := TILE_SIZE + MARGIN.

(** One entry of the [TILESETS] dictionary; coordinates are counted in
    tiles, not pixels. *)
Record config := mkConfig {
  start : Z * Z;
  grid : Z * Z;
  exclude : list (Z * Z)
}.

(** The dictionary in insertion order, which is the order in which
    [TILESETS.items()] yields it. *)
Definition TILESETS : list (string * config) :=
  [ ("water", mkConfig (1, 1) (5, 6) []);
    ("grass", mkConfig (1, 7) (5, 12) []);
    ("dirt", mkConfig (6, 8) (5, 6) []);
    ("stone", mkConfig (6, 13) (5, 6) []) ].

(** The box handed to [img.crop] for the tile in column [tile_col] and
    row [tile_row] of the sheet. *)
Definition tile_box (tile_col tile_row : Z) : Z * Z * Z * Z :=
  let x := tile_col * TILE_STEP in
  let y := tile_row * TILE_STEP in
  (x, y, x + TILE_SIZE, y + TILE_SIZE).

(** The two nested loops that collect the tiles of one tileset. *)
Definition collect_tiles (img : PIL.Image) (cfg : config) : Py (list PIL.Image) :=
  let '(start_col, start_row) := start cfg in
  let '(cols, rows) := grid cfg in
  for_with (range rows) [] (fun tiles row =>
    for_with (range cols) tiles (fun tiles col =>
      let tile_col := start_col + col in
      let tile_row := start_row + row in
      if bool_decide ((tile_col, tile_row) ∈ exclude cfg) then
        print ("  Skipping excluded tile at (" +:+ str tile_col +:+ ", "
               +:+ str tile_row +:+ ")");;
        ret tiles
      else
        let tile_img := PIL.crop img (tile_box tile_col tile_row) in
        ret (tiles ++ [tile_img]))).

(** For the statements below: what the two loops of [collect_tiles] append
    to [tiles], without the console output ([collect_tiles_yields]). *)
Definition collected (img : PIL.Image) (cfg : config) : list PIL.Image :=
  let '(start_col, start_row) := start cfg in
  let '(cols, rows) := grid cfg in
  flat_map (fun row =>
    flat_map (fun col =>
      if bool_decide ((start_col + col, start_row + row) ∈ exclude cfg) then []
      else [PIL.crop img (tile_box (start_col + col) (start_row + row))])
    (range cols))
  (range rows).

(** For the statements below: every cell of the grid lies within the
    sheet. *)
Definition grid_inside (img : PIL.Image) (cfg : config) : bool :=
  let '(start_col, start_row) := start cfg in
  let '(cols, rows) := grid cfg in
  forallb (fun row =>
    forallb (fun col =>
      PIL.box_inside img (tile_box (start_col + col) (start_row + row)))
    (range cols))
  (range rows).

(** Keep the first 16 tiles, or warn when there are fewer. *)
Definition first_16 (tiles : list PIL.Image) : Py (list PIL.Image) :=
  if 16 <=? len tiles then
    print "  Using first 16 tiles for auto-tiling";;
    ret (take 16 tiles)
  else
    print ("  WARNING: Only " +:+ str (len tiles)
           +:+ " tiles available, need 16 for full auto-tiling!");;
    ret tiles.

(** For the statements below: the list [first_16] returns
    ([first_16_yields]). *)
Definition kept (tiles : list PIL.Image) : list PIL.Image :=
  if 16 <=? len tiles then take 16 tiles else tiles.

Definition tile_path (tileset_dir name : string) (idx : Z) : string :=
  os.path.join tileset_dir (name +:+ "_" +:+ format_02d idx +:+ ".png").



(** Save each tile under its index, then fill the slots up to 15 with the
    first tile. *)
Definition save_tiles (tileset_dir name : string) (tiles : list PIL.Image) : Py unit :=
  for_ (enumerate tiles) (fun '(idx, tile) =>
    Image.save tile (tile_path tileset_dir name idx));;
  if len tiles <? 16 then
    for_ (range2 (len tiles) 16) (fun idx =>
      first <- getitem tiles 0;;
      Image.save first (tile_path tileset_dir name idx))
  else ret tt.

(** The body of the loop over [TILESETS.items()]. *)
Definition extract_one (img : PIL.Image) (output_dir : string)
           (entry : string * config) : Py unit :=
  let '(name, cfg) := entry in
  print ("Extracting " +:+ name +:+ "...");;
  tiles <- collect_tiles img cfg;;
  print ("  Collected " +:+ str (len tiles) +:+ " tiles");;
  tiles <- first_16 tiles;;
  let tileset_dir := os.path.join output_dir name in
  there <- os.path.exists_ tileset_dir;;
  (if negb there then os.makedirs tileset_dir false else ret tt);;
  save_tiles tileset_dir name tiles;;
  print ("  Saved 16 individual tiles to: " +:+ tileset_dir +:+ "/");;
  print "".

(** [extract_tileset], with the module constant [TILESETS] as a
    parameter. *)
Definition extract_tileset_with (tilesets : list (string * config))
           (source_path output_dir : string) : Py unit :=
  found <- os.path.exists_ source_path;;
  if negb found then
    print ("Error: Source image not found: " +:+ source_path)
  else
    opened <- Image.open source_path;;
    let img := PIL.convert_RGBA opened in
    print ("Loaded sprite sheet: " +:+ str_pair (PIL.size img));;
    print "";;
    there <- os.path.exists_ output_dir;;
    (if negb there then os.makedirs output_dir false else ret tt);;
    for_ tilesets (extract_one img output_dir);;
    print "[SUCCESS] Extraction complete!".

Definition extract_tileset : string -> string -> Py unit :=
  extract_tileset_with TILESETS.

(** The [if __name__ == '__main__':] block. *)
Definition main : Py unit :=
  let source_path := "roguelikeSheet_transparent.png" in
  let output_dir := "public/assets/tilesets" in
  extract_tileset source_path output_dir.

End ExtractTilesCorrect.

(** ** [extract_tiles.py] *)

Module ExtractTiles.

Definition TILE_SIZE : Z := 16.
Definition MARGIN : Z := 1.
Definition TILE_STEP : Z := TILE_SIZE + MARGIN.

Record config := mkConfig {
  coords : Z * Z;
  layout : string
}.

Definition TILE_SETS : list (string * config) :=
  [ ("grass", mkConfig (289, 425) "grid");
    ("dirt", mkConfig (187, 425) "grid");
    ("water", mkConfig (255, 425) "grid");
    ("stone", mkConfig (425, 425) "grid") ].

(** The box handed to [img.crop] for tile [idx] of a 4x4 grid whose
    top-left pixel is [(start_x, start_y)]. *)
Definition tile_box (start_x start_y idx : Z) : Z * Z * Z * Z :=
  let row := idx / 4 in
  let col := idx mod 4 in
  let tile_x := start_x + col * TILE_STEP in
  let tile_y := start_y + row * TILE_STEP in
  (tile_x, tile_y, tile_x + TILE_SIZE, tile_y + TILE_SIZE).

(** The loop that fills [row_image], with the expression that yields tile
    [idx] as a parameter; the script passes [img.crop(...)]. *)
Definition paste_row (tile_of : Z -> PIL.Image) (row_image : PIL.Image) : PIL.Image :=
  fold_left (fun row_image idx =>
               let tile := tile_of idx in
               PIL.paste row_image tile (idx * TILE_SIZE, 0))
            (range 16) row_image.

Definition make_row (img : PIL.Image) (start_x start_y : Z) : PIL.Image :=
  let row_image := PIL.new (16 * TILE_SIZE, TILE_SIZE) PIL.transparent in
  paste_row (fun idx => PIL.crop img (tile_box start_x start_y idx)) row_image.

(** For the statements below: the file [extract_one] writes for one
    tileset ([extract_strip_yields]): its strip, for the grid layout. *)
Definition strip (img : PIL.Image) (output_dir : string)
           (entry : string * config) : list (string * PIL.Image) :=
  let '(name, cfg) := entry in
  let '(start_x, start_y) := coords cfg in
  if bool_decide (layout cfg = "grid")
  then [(os.path.join output_dir (name +:+ ".png"), make_row img start_x start_y)]
  else [].

(** The body of the loop over [TILE_SETS.items()]. *)
Definition extract_one (img : PIL.Image) (output_dir : string)
           (entry : string * config) : Py unit :=
  let '(name, cfg) := entry in
  let '(start_x, start_y) := coords cfg in
  print (nl +:+ "Extracting " +:+ name +:+ "...");;
  if bool_decide (layout cfg = "grid") then
    let row_image := make_row img start_x start_y in
    let output_path := os.path.join output_dir (name +:+ ".png") in
    Image.save row_image output_path;;
    print ("  Saved: " +:+ output_path);;
    print ("  Size: " +:+ str_pair (PIL.size row_image) +:+ " ("
           +:+ str (16 * TILE_SIZE) +:+ "x" +:+ str TILE_SIZE +:+ ")")
  else ret tt.

Definition extract_tileset_with (tile_sets : list (string * config))
           (source_image_path output_dir : string) : Py unit :=
  img <- Image.open source_image_path;;
  os.makedirs output_dir true;;
  print ("Loading sprite sheet: " +:+ source_image_path);;
  print ("Image size: " +:+ str_pair (PIL.size img));;
  for_ tile_sets (extract_one img output_dir);;
  print (nl +:+ "[SUCCESS] Extraction complete!");;
  print ("Files saved to: " +:+ output_dir).

Definition extract_tileset : string -> string -> Py unit :=
  extract_tileset_with TILE_SETS.

(** The [if __name__ == '__main__':] block. *)
Definition main : Py unit :=
  let source_path := "roguelikeSheet_transparent.png" in
  let output_path := "public/assets/tilesets" in
  print "Kenney Micro Roguelike Tile Extractor";;
  print (str_times "=" 50);;
  found <- os.path.exists_ source_path;;
  if negb found then
    print (nl +:+ "❌ Error: Source image not found: " +:+ source_path);;
    here <- os.getcwd;;
    print (nl +:+ "Current directory: " +:+ here);;
    print (nl +:+ "Please:");;
    print "1. Save the Kenney sprite sheet as 'roguelikeSheet_transparent.png'";;
    print "2. Place it in the collabcanvas directory";;
    print "3. Run this script again"
  else
    extract_tileset source_path output_path.

End ExtractTiles.

(** ** [split_tiles.py] *)

Module SplitTiles.

Definition TILE_SIZE : Z := 16.
Definition VARIANTS : Z := 16.
Definition TILESETS : list string := ["water"; "grass"; "dirt"; "stone"].

Definition variant_box (variant : Z) : Z * Z * Z * Z :=
  let x := variant * TILE_SIZE in
  let y := 0 in
  (x, y, x + TILE_SIZE, y + TILE_SIZE).

Definition variant_path (tileset_output_dir tileset_name : string) (variant : Z) : string :=
  os.path.join tileset_output_dir
               (tileset_name +:+ "_" +:+ format_02d variant +:+ ".png").


Definition split_tileset (tileset_name input_dir output_dir : string) : Py unit :=
  let input_path := os.path.join input_dir (tileset_name +:+ ".png") in
  found <- os.path.exists_ input_path;;
  if negb found then
    print ("Error: " +:+ input_path +:+ " not found")
  else
    opened <- Image.open input_path;;
    let img := PIL.convert_RGBA opened in
    print (nl +:+ "Processing " +:+ tileset_name +:+ ".png ("
           +:+ str (fst (PIL.size img)) +:+ "x" +:+ str (snd (PIL.size img)) +:+ ")");;
    let tileset_output_dir := os.path.join output_dir tileset_name in
    there <- os.path.exists_ tileset_output_dir;;
    (if negb there then os.makedirs tileset_output_dir false else ret tt);;
    for_ (range VARIANTS) (fun variant =>
      let tile := PIL.crop img (variant_box variant) in
      let output_path := variant_path tileset_output_dir tileset_name variant in
      Image.save tile output_path;;
      if variant =? 0 then
        print ("  Extracting tiles to " +:+ tileset_output_dir +:+ "/")
      else ret tt);;
    print ("  ✓ Saved " +:+ str VARIANTS +:+ " individual tiles").

(** For the statements below: the paths [split_tileset] may create for one
    tileset, its directory and its 16 files. *)
Definition output_of (tileset_name output_dir p : string) : Prop :=
  p = os.path.join output_dir tileset_name \/
  exists variant, variant ∈ range VARIANTS /\
    p = variant_path (os.path.join output_dir tileset_name) tileset_name variant.

(** For the statements below: no output of one tileset is the strip of
    another. *)
Definition clash_free (tilesets : list string) (input_dir output_dir : string) : bool :=
  forallb (fun t =>
    forallb (fun u =>
      let input_path := os.path.join input_dir (u +:+ ".png") in
      negb (bool_decide (input_path = os.path.join output_dir t)) &&
      forallb (fun variant =>
                 negb (bool_decide
                         (input_path
                          = variant_path (os.path.join output_dir t) t variant)))
              (range VARIANTS))
    tilesets)
  tilesets.

Definition main_with (tilesets : list string) : Py unit :=
  let input_dir := "public/assets/tilesets" in
  let output_dir := "public/assets/tilesets" in
  print "Splitting sprite sheets into individual tiles...";;
  print (str_times "=" 50);;
  for_ tilesets (fun tileset => split_tileset tileset input_dir output_dir);;
  print (nl +:+ str_times "=" 50);;
  print "[SUCCESS] All tiles split successfully!".

Definition main : Py unit := main_with TILESETS.

End SplitTiles.

(** ** Pixel access: [im.getpixel] and the channels of a pixel *)

Module Pixels.

(** [im.getpixel((x, y))]: a negative coordinate counts from the far edge,
    and a position off the image raises [IndexError]. *)
Definition getpixel (im : PIL.Image) (xy : Z * Z) : Py PIL.pixel :=
  let '(x, y) := xy in
  let x := if x <? 0 then PIL.width im + x else x in
  let y := if y <? 0 then PIL.height im + y else y in
  if PIL.inside im x y then ret (PIL.pixel_at im x y) else raise IndexError.

(** [pixel[0]], [pixel[1]], [pixel[2]], [pixel[3]] *)
Definition red (p : PIL.pixel) : Z := fst (fst (fst p)).
Definition green (p : PIL.pixel) : Z := snd (fst (fst p)).
Definition blue (p : PIL.pixel) : Z := snd (fst p).
Definition alpha (p : PIL.pixel) : Z := snd p.

End Pixels.

(** A [for] loop with [break]: the body returns the new value of the local
    variable and whether it has left the loop. *)
Fixpoint for_break {A S} (l : list A) (s : S) (body : S -> A -> Py (S * bool)) : Py S :=
  match l with
  | [] => ret s
  | x :: l' =>
      r <- body s x;;
      if snd r then ret (fst r) else for_break l' (fst r) body
  end.

(** [str((a, b, c))] *)
Definition str_triple (t : Z * Z * Z) : string :=
  let '(a, b, c) := t in
  "(" +:+ str a +:+ ", " +:+ str b +:+ ", " +:+ str c +:+ ")".

(** ** [extract_single_test.py] *)

Module ExtractSingleTest.

Definition main : Py unit :=
  img <- Image.open "roguelikeSheet_transparent.png";;
  let test1 := PIL.crop img (0, 0, 16, 16) in
  Image.save test1 "public/assets/tilesets/test_topleft.png";;
  print "Saved test_topleft.png (0,0)";;
  let test2 := PIL.crop img (85, 0, 85 + 16, 16) in
  Image.save test2 "public/assets/tilesets/test_green.png";;
  print "Saved test_green.png (85,0)";;
  let test3 := PIL.crop img (289, 425, 289 + 16, 425 + 16) in
  Image.save test3 "public/assets/tilesets/test_previous.png";;
  print "Saved test_previous.png (289,425)";;
  print "";;
  print "Check these 3 test files to see what tiles actually look like!".

End ExtractSingleTest.

(** ** [inspect_sprites.py] *)

Module InspectSprites.

(** The body of the first pair of loops. *)
Definition probe_cell (img : PIL.Image) (row col : Z) : Py unit :=
  let x := col * 17 in
  let y := row * 17 in
  pixel <- Pixels.getpixel img (x + 8, y + 8);;
  if 100 <? Pixels.alpha pixel then
    print ("  (" +:+ str col +:+ "," +:+ str row +:+ ") at (" +:+ str x +:+ "," +:+ str y
           +:+ "): RGB(" +:+ str (Pixels.red pixel) +:+ ", " +:+ str (Pixels.green pixel)
           +:+ ", " +:+ str (Pixels.blue pixel) +:+ ")")
  else
    print ("  (" +:+ str col +:+ "," +:+ str row +:+ ") at (" +:+ str x +:+ ","
           +:+ str y +:+ "): EMPTY").

(** The body of the second pair of loops. *)
Definition probe_green (img : PIL.Image) (row col : Z) : Py unit :=
  let x := col * 17 + 8 in
  let y := row * 17 + 8 in
  pixel <- Pixels.getpixel img (x, y);;
  if 100 <? Pixels.alpha pixel then
    let r := Pixels.red pixel in
    let g := Pixels.green pixel in
    let b := Pixels.blue pixel in
    if (r <? g) && (b <? g) && (80 <? g) then
      print ("  GREEN at col=" +:+ str col +:+ ", row=" +:+ str row +:+ " -> coords=("
             +:+ str (col * 17) +:+ ", " +:+ str (row * 17) +:+ "): RGB(" +:+ str r
             +:+ "," +:+ str g +:+ "," +:+ str b +:+ ")")
    else ret tt
  else ret tt.

Definition main : Py unit :=
  img <- Image.open "roguelikeSheet_transparent.png";;
  print ("Sheet size: " +:+ str_pair (PIL.size img));;
  print "";;
  print "Top-left 4x4 grid (0,0 to 68,68):";;
  for_ (range 4) (fun row => for_ (range 4) (fun col => probe_cell img row col));;
  print "";;
  print "Looking for GREEN tiles (grass-like) in first few rows...";;
  for_ (range 4) (fun row => for_ (range 10) (fun col => probe_green img row col)).

End InspectSprites.

(** ** [find_grass.py] *)

Module FindGrass.

Definition probe_cell (img : PIL.Image) (row col : Z) : Py unit :=
  let x := 85 + col * 17 in
  let y := 0 + row * 17 in
  pixel <- Pixels.getpixel img (x + 8, y + 8);;
  if 100 <? Pixels.alpha pixel then
    print ("  (" +:+ str col +:+ "," +:+ str row +:+ ") at (" +:+ str x +:+ "," +:+ str y
           +:+ "): RGB(" +:+ str (Pixels.red pixel) +:+ ", " +:+ str (Pixels.green pixel)
           +:+ ", " +:+ str (Pixels.blue pixel) +:+ ")")
  else
    print ("  (" +:+ str col +:+ "," +:+ str row +:+ "): EMPTY").

Definition test_positions : list (Z * Z * string) :=
  [ (68, 0, "col 4"); (102, 0, "col 6"); (119, 0, "col 7"); (136, 0, "col 8") ].

(** The two loops that set [is_grid]; there is no [break]. *)
Definition check_grid (img : PIL.Image) (start_x start_y : Z) : Py bool :=
  for_with (range 4) true (fun is_grid row =>
    for_with (range 4) is_grid (fun is_grid col =>
      p <- Pixels.getpixel img (start_x + col * 17 + 8, start_y + row * 17 + 8);;
      if Pixels.alpha p <? 100 then ret false else ret is_grid)).

(** The body of the loop over [test_positions]. *)
Definition probe_position (img : PIL.Image) (position : Z * Z * string) : Py unit :=
  let '(start_x, start_y, label) := position in
  pixel <- Pixels.getpixel img (start_x + 8, start_y + 8);;
  if 100 <? Pixels.alpha pixel then
    let r := Pixels.red pixel in
    let g := Pixels.green pixel in
    let b := Pixels.blue pixel in
    if 80 <? g then
      print ("  " +:+ label +:+ " (" +:+ str start_x +:+ "," +:+ str start_y +:+ "): RGB("
             +:+ str r +:+ "," +:+ str g +:+ "," +:+ str b +:+ ")");;
      is_grid <- check_grid img start_x start_y;;
      if is_grid then print "    ✓ This is a 4x4 grid!" else ret tt
    else ret tt
  else ret tt.

Definition main : Py unit :=
  img <- Image.open "roguelikeSheet_transparent.png";;
  print "Checking grid starting at column 5, row 0 (85, 0):";;
  for_ (range 4) (fun row => for_ (range 4) (fun col => probe_cell img row col));;
  print "";;
  print "Checking other potential grass locations in first few rows:";;
  for_ test_positions (probe_position img).

End FindGrass.

(** ** [find_tiles.py] *)

Module FindTiles.

Definition TILE_STEP : Z := 17.

(** An entry of [found_regions]:
    [(start_col, start_row, avg_color, color_name)]. *)
Definition region : Type := Z * Z * (Z * Z * Z) * string.

(** The two inner loops: the centre pixels of the 4 x 4 cells, collected
    until one of them is (almost) transparent. *)
Definition probe_region (img : PIL.Image) (start_col start_row : Z)
  : Py (list PIL.pixel * bool) :=
  for_break (range 4) ([], true) (fun state row =>
    state <- for_break (range 4) state (fun state col =>
      let '(colors, has_content) := state in
      let x := start_col * TILE_STEP + 8 in
      let y := start_row * TILE_STEP + 8 in
      pixel <- Pixels.getpixel img (x + col * TILE_STEP, y + row * TILE_STEP);;
      if Pixels.alpha pixel <? 10 then ret ((colors, false), true)
      else ret ((colors ++ [pixel], has_content), false));;
    if negb (snd state) then ret (state, true) else ret (state, false)).

(** [tuple(sum(c[i] for c in colors)//16 for i in range(3))] *)
Definition avg_color (colors : list PIL.pixel) : Z * Z * Z :=
  (fold_right Z.add 0 (map Pixels.red colors) / 16,
   fold_right Z.add 0 (map Pixels.green colors) / 16,
   fold_right Z.add 0 (map Pixels.blue colors) / 16).

(** The [if] / [elif] chain that guesses a name for the colour. *)
Definition color_name (avg : Z * Z * Z) : string :=
  let '(r, g, b) := avg in
  if (r <? g) && (b <? g) && (100 <? g) then "GREEN (grass?)"
  else if (100 <? r) && (100 <? g) && (b <? 100) then "BROWN (dirt?)"
  else if (r <? 100) && (g <? 100) && (100 <? b) then "BLUE (water?)"
  else if (100 <? r) && (100 <? g) && (100 <? b) then "GRAY (stone?)"
  else if (Z.abs (r - g) <? 30) && (Z.abs (g - b) <? 30) && (80 <? r) then "GRAY (stone?)"
  else "unknown".

(** The body of the loops over [start_row] and [start_col]. *)
Definition scan_cell (img : PIL.Image) (found_regions : list region)
           (start_row start_col : Z) : Py (list region) :=
  probed <- probe_region img start_col start_row;;
  let '(colors, has_content) := probed in
  if has_content && (len colors =? 16) then
    let avg := avg_color colors in
    let x_coord := start_col * TILE_STEP in
    let y_coord := start_row * TILE_STEP in
    let name := color_name avg in
    print ("Found 4x4 at col=" +:+ str start_col +:+ ", row=" +:+ str start_row
           +:+ " -> coords=(" +:+ str x_coord +:+ ", " +:+ str y_coord +:+ ")");;
    print ("  Color: RGB" +:+ str_triple avg +:+ " - " +:+ name);;
    print "";;
    ret (found_regions ++ [(start_col, start_row, avg, name)])
  else ret found_regions.

(** The scan over all origins; the list it returns is [found_regions]. *)
Definition scan (img : PIL.Image) : Py (list region) :=
  for_with (range2 0 (snd (PIL.size img) / TILE_STEP - 3)) [] (fun found_regions start_row =>
    for_with (range2 0 (fst (PIL.size img) / TILE_STEP - 3)) found_regions
             (fun found_regions start_col => scan_cell img found_regions start_row start_col)).

(** The script; its result is the [found_regions] it ends with. *)
Definition main : Py (list region) :=
  img <- Image.open "roguelikeSheet_transparent.png";;
  print ("Image size: " +:+ str_pair (PIL.size img));;
  print ("With 17px spacing: " +:+ str (fst (PIL.size img) / 17) +:+ " x "
         +:+ str (snd (PIL.size img) / 17) +:+ " tiles");;
  print "";;
  print "Scanning for 4x4 auto-tile regions...";;
  print "";;
  found_regions <- scan img;;
  print (nl +:+ "Found " +:+ str (len found_regions) +:+ " potential auto-tile regions");;
  ret found_regions.

(** For the statements below: the centre pixel of cell [(col, row)] of the
    region with origin [(start_col, start_row)], and the 16 centres of the
    region row by row. *)
Definition centre (img : PIL.Image) (start_col start_row row col : Z) : PIL.pixel :=
  PIL.pixel_at img (start_col * TILE_STEP + 8 + col * TILE_STEP)
                   (start_row * TILE_STEP + 8 + row * TILE_STEP).

Definition centres (img : PIL.Image) (start_col start_row : Z) : list PIL.pixel :=
  flat_map (fun row => map (centre img start_col start_row row) (range 4)) (range 4).

(** For the statements below: a pixel that does not stop the probing, and
    a region none of whose centres does. *)
Definition has_content (p : PIL.pixel) : bool := negb (Pixels.alpha p <? 10).

Definition solid (img : PIL.Image) (start_col start_row : Z) : bool :=
  forallb has_content (centres img start_col start_row).

(** For the statements below: what [scan] is to find. *)
Definition regions (img : PIL.Image) : list region :=
  flat_map (fun start_row =>
    flat_map (fun start_col =>
      if solid img start_col start_row
      then [(start_col, start_row, avg_color (centres img start_col start_row),
             color_name (avg_color (centres img start_col start_row)))]
      else [])
      (range2 0 (PIL.width img / TILE_STEP - 3)))
    (range2 0 (PIL.height img / TILE_STEP - 3)).

End FindTiles.

(** ** How a computation may end *)

(** [safe m]: [m] always runs to its end. *)
Definition safe {A} (m : Py A) : Prop :=
  forall w, exists a w', m w = (Ok a, w').

(** [fails e m]: [m] always ends with the exception [e]. *)
Definition fails {A} (e : exn) (m : Py A) : Prop :=
  forall w, exists w', m w = (Raise e, w').

(** [safe_or e m]: [m] runs to its end or ends with the exception [e]. *)
Definition safe_or {A} (e : exn) (m : Py A) : Prop :=
  forall w, (exists a w', m w = (Ok a, w')) \/ (exists w', m w = (Raise e, w')).

(** ** What is on disk after a run *)

(** The files after the [save] calls [l], in this order, on the files [fs]. *)
Definition write_all (l : list (string * PIL.Image)) (fs : gmap string PIL.Image)
  : gmap string PIL.Image :=
  fold_left (fun fs e => <[fst e := snd e]> fs) l fs.

(** The directories a trace has created. *)
Definition made_in (t : list event) : list string :=
  omap (fun e => match e with MadeDirs p => Some p | _ => None end) t.

(** [stores m]: the only way [m] changes the disk is through the [save] and
    [makedirs] calls its trace records. *)
Definition stores {A} (m : Py A) : Prop :=
  forall w o w', m w = (o, w') ->
    exists evs, trace w' = trace w ++ evs /\
                files w' = write_all (saved_in evs) (files w) /\
                dirs w' = list_to_set (made_in evs) ∪ dirs w.


(** * Properties *)

(** ** Lists and ranges *)

Lemma range_length n : length (range n) = Z.to_nat n.
Proof. unfold range. by rewrite length_map, length_seq. Qed.

Lemma range_lookup n i : 0 <= i < n -> range n !! Z.to_nat i = Some i.
Proof.
  intros Hi. unfold range. rewrite list_lookup_fmap, lookup_seq_lt by lia.
  simpl. f_equal. lia.
Qed.

Lemma elem_of_range n i : i ∈ range n <-> 0 <= i < n.
Proof.
  unfold range. rewrite list_elem_of_fmap. split.
  - intros (k & -> & Hk). apply elem_of_seq in Hk. lia.
  - intros Hi. exists (Z.to_nat i). split; [lia|]. apply elem_of_seq. lia.
Qed.

Module PILFacts.
Import PIL.

Lemma size_raster w h f : size (raster w h f) = (Z.max 0 w, Z.max 0 h).
Proof. reflexivity. Qed.

Lemma size_crop im x0 y0 x1 y1 :
  size (crop im (x0, y0, x1, y1)) = (Z.max 0 (x1 - x0), Z.max 0 (y1 - y0)).
Proof. reflexivity. Qed.

Lemma nth_rows {A} (d : A) (g : Z -> list A) (w : nat) :
  (forall y, length (g y) = w) ->
  forall (ys : list Z) (j i : nat) y,
    ys !! j = Some y -> (i < w)%nat ->
    nth (j * w + i) (flat_map g ys) d = nth i (g y) d.
Proof.
  intros Hg ys. induction ys as [|y0 ys IH]; intros j i y Hj Hi; [done|].
  destruct j as [|j]; simpl in *.
  - injection Hj as ->. rewrite app_nth1; [done|]. by rewrite Hg.
  - rewrite app_nth2 by (rewrite Hg; lia). rewrite Hg.
    replace (w + j * w + i - w)%nat with (j * w + i)%nat by lia. by apply IH.
Qed.

Lemma pixel_at_raster w h f x y :
  0 <= x < w -> 0 <= y < h -> pixel_at (raster w h f) x y = f x y.
Proof.
  intros Hx Hy. unfold pixel_at, inside, raster; simpl.
  replace ((0 <=? x) && (x <? Z.max 0 w) && (0 <=? y) && (y <? Z.max 0 h))
    with true by (symmetry; repeat (apply andb_true_intro; split); lia).
  replace (Z.to_nat (y * Z.max 0 w + x))
    with (Z.to_nat y * Z.to_nat w + Z.to_nat x)%nat by nia.
  rewrite (nth_rows transparent _ (Z.to_nat w)) with (y := y).
  - rewrite nth_indep with (d' := f 0 y) by (rewrite length_map, range_length; lia).
    rewrite (map_nth (fun x => f x y)). f_equal.
    unfold range. rewrite nth_indep with (d' := Z.of_nat 0)
      by (rewrite length_map, length_seq; lia).
    rewrite (map_nth Z.of_nat), seq_nth by lia. lia.
  - intros y'. by rewrite length_map, range_length.
  - by apply range_lookup.
  - lia.
Qed.




Lemma wf_raster w h f : wf (raster w h f).
Proof.
  unfold wf, raster; simpl. split; [lia|]. split; [lia|].
  assert (Hlen : forall ys : list Z,
             length (flat_map (fun y => map (fun x => f x y) (range w)) ys)
             = (Z.to_nat w * length ys)%nat).
  { induction ys as [|y ys IH]; simpl; [lia|].
    rewrite length_app, length_map, range_length, IH. lia. }
  rewrite Hlen, range_length. lia.
Qed.


End PILFacts.


Module StripFacts.
Import PIL PILFacts.

Lemma range_succ k : 0 <= k -> range (k + 1) = range k ++ [k].
Proof.
  intros Hk. unfold range. replace (Z.to_nat (k + 1)) with (S (Z.to_nat k)) by lia.
  rewrite seq_S, map_app. simpl. do 3 f_equal. lia.
Qed.

Lemma size_paste dst src p : size (paste dst src p) = (Z.max 0 (width dst), Z.max 0 (height dst)).
Proof. by destruct p. Qed.

Lemma inside_tile16 t x y :
  size t = (16, 16) -> inside t x y = (0 <=? x) && (x <? 16) && (0 <=? y) && (y <? 16).
Proof. unfold size, inside. intros [= -> ->]. done. Qed.

(** After the first [k] iterations the row holds tiles 0..k-1 side by side
    and is still blank to their right. *)
Lemma paste_prefix (tile_of : Z -> Image) (k : nat) :
  (k <= 16)%nat ->
  (forall idx, 0 <= idx < 16 -> size (tile_of idx) = (16, 16)) ->
  let row := fold_left (fun row_image idx =>
                          paste row_image (tile_of idx) (idx * ExtractTiles.TILE_SIZE, 0))
                       (range (Z.of_nat k))
                       (new (16 * ExtractTiles.TILE_SIZE, ExtractTiles.TILE_SIZE) transparent) in
  size row = (256, 16) /\
  forall x y, 0 <= x < 256 -> 0 <= y < 16 ->
    pixel_at row x y = if x <? 16 * Z.of_nat k
                       then pixel_at (tile_of (x / 16)) (x mod 16) y
                       else transparent.
Proof.
  intros Hk Hsz. induction k as [|k IH]; cbv zeta.
  - split; [done|]. intros x y Hx Hy.
    change (range (Z.of_nat 0)) with (@nil Z). cbn [fold_left].
    unfold new; cbn [fst snd]. rewrite pixel_at_raster by (unfold ExtractTiles.TILE_SIZE; lia).
    by destruct (Z.ltb_spec x (16 * Z.of_nat 0)); [lia|].
  - replace (Z.of_nat (S k)) with (Z.of_nat k + 1) by lia.
    rewrite range_succ, fold_left_app by lia. cbn [fold_left].
    destruct IH as [Hsize IHpx]; [lia|].
    set (row := fold_left _ (range (Z.of_nat k)) _) in *.
    set (kz := Z.of_nat k) in *. assert (0 <= kz < 16) as Hkz by lia.
    split.
    + rewrite size_paste. injection Hsize as -> ->. done.
    + intros x y Hx Hy. unfold paste.
      injection Hsize as Hw Hh. rewrite Hw, Hh.
      rewrite pixel_at_raster by lia.
      rewrite inside_tile16 by (apply Hsz; lia).
      unfold ExtractTiles.TILE_SIZE.
      destruct (Z.ltb_spec x (16 * (kz + 1))) as [Hlt|Hge].
      * destruct (Z.ltb_spec x (16 * kz)) as [Hlt'|Hge'].
        -- replace ((0 <=? x - kz * 16) && (x - kz * 16 <? 16) && (0 <=? y - 0) && (y - 0 <? 16))
             with false by (symmetry; rewrite !andb_false_iff; lia).
           rewrite IHpx by lia. by replace (x <? 16 * kz) with true by lia.
        -- replace ((0 <=? x - kz * 16) && (x - kz * 16 <? 16) && (0 <=? y - 0) && (y - 0 <? 16))
             with true by (symmetry; repeat (apply andb_true_intro; split); lia).
           assert (x / 16 = kz) as -> by (symmetry; apply Z.div_unique with (r := x - kz * 16); lia).
           f_equal; [| lia].
           apply Z.mod_unique with (q := kz); lia.
      * replace ((0 <=? x - kz * 16) && (x - kz * 16 <? 16) && (0 <=? y - 0) && (y - 0 <? 16))
          with false by (symmetry; rewrite !andb_false_iff; lia).
        rewrite IHpx by lia. by replace (x <? 16 * kz) with false by lia.
Qed.

End StripFacts.

(** ** Running [Py] computations *)

Section Yields.

Lemma saved_log_print line w : saved (log (Printed line) w) = saved w.
Proof. unfold saved, saved_in, log; simpl. rewrite omap_app; simpl. by rewrite app_nil_r. Qed.

Lemma yields_ret {A} (a : A) w : yields (ret a) w (Ok a) [].
Proof. exists w. by rewrite app_nil_r. Qed.

Lemma yields_raise {A} e w : yields (@raise A e) w (Raise e) [].
Proof. exists w. by rewrite app_nil_r. Qed.

Lemma yields_print line w : yields (print line) w (Ok tt) [].
Proof. eexists. split; [done|]. by rewrite saved_log_print, app_nil_r. Qed.


Lemma yields_bind {A B} (m : Py A) (k : A -> Py B) w a l1 o l2 :
  yields m w (Ok a) l1 ->
  (forall w', yields (k a) w' o l2) ->
  yields (bind m k) w o (l1 ++ l2).
Proof.
  intros (w1 & Hm & Hs1) Hk. destruct (Hk w1) as (w2 & Hk2 & Hs2).
  exists w2. unfold bind. rewrite Hm. split; [done|]. by rewrite Hs2, Hs1, app_assoc.
Qed.


Lemma yields_exists p w : exists b, yields (os.path.exists_ p) w (Ok b) [].
Proof. eexists. exists w. split; [done|]. by rewrite app_nil_r. Qed.





(** A loop that only ever appends to its accumulator. *)
Lemma yields_for_with {A T} (l : list A) (s : list T)
      (body : list T -> A -> Py (list T)) (g : A -> list T) w :
  (forall s x w, yields (body s x) w (Ok (s ++ g x)) []) ->
  yields (for_with l s body) w (Ok (s ++ flat_map g l)) [].
Proof.
  intros Hbody. revert s w. induction l as [|x l IH]; intros s w; simpl.
  - rewrite app_nil_r. apply yields_ret.
  - change (@nil (string * PIL.Image)) with (@nil (string * PIL.Image) ++ []).
    eapply yields_bind; [apply Hbody|].
    intros w'. rewrite app_assoc. apply IH.
Qed.

End Yields.

Lemma flat_map_singleton {A B} (f : A -> B) (l : list A) :
  flat_map (fun x => [f x]) l = map f l.
Proof. induction l as [|x l IH]; simpl; [done|]. by rewrite IH. Qed.

Lemma len_nonneg {A} (l : list A) : 0 <= len l.
Proof. unfold len. lia. Qed.

Module ExtractTilesCorrectFacts.
Import ExtractTilesCorrect.

Lemma collect_tiles_yields img cfg w :
  yields (collect_tiles img cfg) w (Ok (collected img cfg)) [].
Proof.
  unfold collect_tiles, collected.
  destruct (start cfg) as [start_col start_row], (grid cfg) as [cols rows].
  apply (yields_for_with (range rows) [] _
           (fun row => flat_map (fun col =>
              if bool_decide ((start_col + col, start_row + row) ∈ exclude cfg) then []
              else [PIL.crop img (tile_box (start_col + col) (start_row + row))])
            (range cols))).
  intros tiles row w1.
  apply (yields_for_with (range cols) tiles _
           (fun col =>
              if bool_decide ((start_col + col, start_row + row) ∈ exclude cfg) then []
              else [PIL.crop img (tile_box (start_col + col) (start_row + row))])).
  intros tiles' col w2. case_bool_decide.
  - rewrite app_nil_r.
    change (@nil (string * PIL.Image)) with (@nil (string * PIL.Image) ++ []).
    eapply yields_bind; [apply yields_print|]. intros w3. apply yields_ret.
  - apply yields_ret.
Qed.

Lemma first_16_yields tiles w : yields (first_16 tiles) w (Ok (kept tiles)) [].
Proof.
  unfold first_16, kept.
  change (@nil (string * PIL.Image)) with (@nil (string * PIL.Image) ++ []).
  destruct (16 <=? len tiles);
    (eapply yields_bind; [apply yields_print|]; intros w'; apply yields_ret).
Qed.

Lemma len_kept tiles : len (kept tiles) = Z.min 16 (len tiles).
Proof.
  unfold kept, len. destruct (Z.leb_spec 16 (Z.of_nat (length tiles))).
  - rewrite length_take. lia.
  - lia.
Qed.


End ExtractTilesCorrectFacts.


Module ExtractTilesCorrectRuns.
Import ExtractTilesCorrect ExtractTilesCorrectFacts.





Lemma extract_tileset_missing tilesets src out w :
  missing src w ->
  extract_tileset_with tilesets src out w
  = (Ok tt, log (Printed ("Error: Source image not found: " +:+ src)) w).
Proof.
  intros [Hf Hd]. unfold extract_tileset_with, bind, os.path.exists_.
  rewrite Hf. rewrite bool_decide_false by (by intros [? ?]).
  rewrite bool_decide_false by done. reflexivity.
Qed.
End ExtractTilesCorrectRuns.

Lemma elem_of_flat_map {A B} (f : A -> list B) (l : list A) (y : B) :
  y ∈ flat_map f l <-> exists x, x ∈ l /\ y ∈ f x.
Proof.
  rewrite list_elem_of_In, in_flat_map. split.
  - intros (x & Hx & Hy). exists x. by rewrite !list_elem_of_In.
  - intros (x & Hx & Hy). exists x. by rewrite <- !list_elem_of_In.
Qed.

Lemma length_flat_map_const {A B} (f : A -> list B) (l : list A) (n : nat) :
  (forall x, x ∈ l -> length (f x) = n) -> length (flat_map f l) = (length l * n)%nat.
Proof.
  induction l as [|x l IH]; intros Hf; simpl; [done|].
  rewrite length_app, Hf by left. rewrite IH; [lia|]. intros y Hy. apply Hf. by right.
Qed.






Module WrittenFacts.
Import ExtractTilesCorrect.



End WrittenFacts.

Module CollectedFacts.
Import ExtractTilesCorrect.

Lemma size_tile img c r : PIL.size (PIL.crop img (tile_box c r)) = (TILE_SIZE, TILE_SIZE).
Proof.
  unfold tile_box, TILE_STEP, TILE_SIZE, MARGIN. rewrite PILFacts.size_crop.
  f_equal; lia.
Qed.

Lemma wf_tile img c r : PIL.wf (PIL.crop img (tile_box c r)).
Proof. apply PILFacts.wf_raster. Qed.

Lemma elem_of_collected img start_col start_row cols rows excl tile :
  tile ∈ collected img (mkConfig (start_col, start_row) (cols, rows) excl)
  <-> exists col row,
      0 <= col < cols /\ 0 <= row < rows /\
      ((start_col + col, start_row + row) ∉ excl) /\
      tile = PIL.crop img (tile_box (start_col + col) (start_row + row)).
Proof.
  unfold collected; simpl. rewrite elem_of_flat_map. split.
  - intros (row & Hrow & Htile). apply elem_of_flat_map in Htile as (col & Hcol & Htile).
    apply elem_of_range in Hrow, Hcol. case_bool_decide; [by apply elem_of_nil in Htile|].
    apply list_elem_of_singleton in Htile. by exists col, row.
  - intros (col & row & Hcol & Hrow & Hex & ->). exists row.
    split; [by apply elem_of_range|]. apply elem_of_flat_map. exists col.
    split; [by apply elem_of_range|]. rewrite bool_decide_false by done.
    by apply list_elem_of_singleton.
Qed.

Lemma collected_sizes img cfg :
  Forall (fun t => PIL.tile16 t) (collected img cfg).
Proof.
  destruct cfg as [[sc sr] [cols rows] excl]. apply Forall_forall. intros t Ht.
  apply elem_of_collected in Ht as (col & row & _ & _ & _ & ->).
  split; [apply wf_tile | apply size_tile].
Qed.

Lemma len_collected img start_col start_row cols rows :
  0 <= cols -> 0 <= rows ->
  len (collected img (mkConfig (start_col, start_row) (cols, rows) [])) = cols * rows.
Proof.
  intros Hc Hr. unfold collected, len; simpl.
  rewrite (length_flat_map_const _ _ (Z.to_nat cols)).
  - rewrite range_length. lia.
  - intros row _. rewrite (length_flat_map_const _ _ 1%nat).
    + rewrite range_length. lia.
    + done.
Qed.


End CollectedFacts.

Module ExtractTilesFacts.
Import ExtractTiles.


End ExtractTilesFacts.

Module SplitTilesFacts.
Import SplitTiles.


Lemma split_tileset_missing name input_dir output_dir w :
  missing (os.path.join input_dir (name +:+ ".png")) w ->
  split_tileset name input_dir output_dir w
  = (Ok tt, log (Printed ("Error: " +:+ os.path.join input_dir (name +:+ ".png")
                          +:+ " not found")) w).
Proof.
  intros [Hf Hd]. unfold split_tileset, bind, os.path.exists_.
  rewrite Hf. rewrite bool_decide_false by (by intros [? ?]).
  rewrite bool_decide_false by done. reflexivity.
Qed.
End SplitTilesFacts.

(** ** File names *)







(** ** What a computation leaves untouched *)

Section Frames.
Context (P : string -> Prop).

Lemma touches_refl w : touches P w w.
Proof. split; [exists []; by rewrite app_nil_r | done]. Qed.

Lemma touches_trans w1 w2 w3 : touches P w1 w2 -> touches P w2 w3 -> touches P w1 w3.
Proof.
  intros [[e1 H1] F1] [[e2 H2] F2]. split.
  - exists (e1 ++ e2). by rewrite H2, H1, app_assoc.
  - intros p Hp. destruct (F1 p Hp) as [Hf1 Hd1], (F2 p Hp) as [Hf2 Hd2].
    split; [congruence|]. by rewrite Hd2.
Qed.

Lemma frames_ret {A} (a : A) : frames P (ret a).
Proof. intros w o w' [= <- <-]. apply touches_refl. Qed.

Lemma frames_raise {A} e : frames P (@raise A e).
Proof. intros w o w' [= <- <-]. apply touches_refl. Qed.

Lemma frames_print line : frames P (print line).
Proof. intros w o w' [= <- <-]. split; [by eexists | done]. Qed.

Lemma frames_exists p : frames P (os.path.exists_ p).
Proof. intros w o w' [= <- <-]. apply touches_refl. Qed.

Lemma frames_open p : frames P (Image.open p).
Proof.
  intros w o w'. unfold Image.open.
  destruct (files w !! p); [|case_bool_decide]; intros [= <- <-]; apply touches_refl.
Qed.

Lemma frames_save im p : P p -> frames P (Image.save im p).
Proof.
  intros Hp w o w' [= <- <-]. split; [by eexists|]. intros q Hq. simpl.
  split; [|done]. apply lookup_insert_ne. by intros ->.
Qed.

Lemma frames_makedirs d exist_ok : P d -> frames P (os.makedirs d exist_ok).
Proof.
  intros Hd w o w'. unfold os.makedirs.
  repeat case_bool_decide; try destruct exist_ok;
    intros [= <- <-]; try apply touches_refl.
  all: split; [by eexists|]; intros q Hq; simpl; split; [done|];
    rewrite elem_of_union, elem_of_singleton; split; [|by right];
    intros [-> | ?]; done.
Qed.

Lemma frames_bind {A B} (m : Py A) (k : A -> Py B) :
  frames P m -> (forall a, frames P (k a)) -> frames P (bind m k).
Proof.
  intros Hm Hk w o w'. unfold bind. destruct (m w) as [[a|e] w1] eqn:Hrun.
  - intros Hrun2. eapply touches_trans; [by eapply Hm | by eapply Hk].
  - intros [= <- <-]. by eapply Hm.
Qed.

Lemma frames_for {A} (l : list A) (body : A -> Py unit) :
  (forall x, x ∈ l -> frames P (body x)) -> frames P (for_ l body).
Proof.
  induction l as [|x l IH]; intros Hbody; simpl; [apply frames_ret|].
  apply frames_bind; [apply Hbody; by left|].
  intros _. apply IH. intros y Hy. apply Hbody. by right.
Qed.
End Frames.

Module SplitTilesFrame.
Import SplitTiles.

Lemma split_tileset_frames name input_dir output_dir :
  frames (output_of name output_dir) (split_tileset name input_dir output_dir).
Proof.
  unfold split_tileset.
  apply frames_bind; [apply frames_exists|]. intros found.
  destruct (negb found); [apply frames_print|].
  apply frames_bind; [apply frames_open|]. intros opened.
  apply frames_bind; [apply frames_print|]. intros _.
  apply frames_bind; [apply frames_exists|]. intros there.
  apply frames_bind.
  { destruct (negb there); [|apply frames_ret]. apply frames_makedirs. by left. }
  intros _. apply frames_bind; [|intros _; apply frames_print].
  apply frames_for. intros variant Hv.
  apply frames_bind; [|intros _; destruct (variant =? 0);
                        [apply frames_print | apply frames_ret]].
  apply frames_save. right. by exists variant.
Qed.



Lemma clash_free_spec tilesets input_dir output_dir t u :
  clash_free tilesets input_dir output_dir = true ->
  t ∈ tilesets -> u ∈ tilesets ->
  ~ output_of t output_dir (os.path.join input_dir (u +:+ ".png")).
Proof.
  unfold clash_free. rewrite forallb_forall. intros Hall Ht Hu.
  apply list_elem_of_In in Ht, Hu.
  specialize (Hall t Ht). rewrite forallb_forall in Hall. specialize (Hall u Hu).
  cbv zeta in Hall. apply andb_prop in Hall as [Hd Hv].
  apply negb_true_iff, bool_decide_eq_false in Hd.
  rewrite forallb_forall in Hv.
  intros [Heq | (variant & Hin & Heq)]; [done|].
  apply list_elem_of_In in Hin. specialize (Hv variant Hin).
  by apply negb_true_iff, bool_decide_eq_false in Hv.
Qed.

End SplitTilesFrame.


(** * The specified properties, C1 to C10 *)

(** C1 -- with [TILE_SIZE = 16] and [MARGIN = 1] the tile at grid position
    [(col, row)] is cropped from the box whose top-left pixel is the pixel
    origin of the grid plus [(col, row) * 17].  In [extract_tiles_correct.py]
    the grid origin is given in tiles, so its pixel origin is
    [(start_col * 17, start_row * 17)], and the collected tiles are exactly
    these crops of the cells that are not excluded; in [extract_tiles.py]
    the origin is given in pixels and tile [row * 4 + col] is that crop.
    For origin (0, 0) the tile at column 2 and row 1 is read from (34, 17). *)
Theorem C1_tile_offset :
  (forall img start_col start_row cols rows excl w, exists tiles w',
      ExtractTilesCorrect.collect_tiles
        img (ExtractTilesCorrect.mkConfig (start_col, start_row) (cols, rows) excl) w
      = (Ok tiles, w') /\
      forall tile,
        tile ∈ tiles <->
        exists col row,
          0 <= col < cols /\ 0 <= row < rows /\
          ((start_col + col, start_row + row) ∉ excl) /\
          tile = PIL.crop img (start_col * 17 + col * 17, start_row * 17 + row * 17,
                               start_col * 17 + col * 17 + 16,
                               start_row * 17 + row * 17 + 16)) /\
  (forall start_x start_y col row,
      0 <= col < 4 -> 0 <= row < 4 ->
      ExtractTiles.tile_box start_x start_y (row * 4 + col)
      = (start_x + col * 17, start_y + row * 17,
         start_x + col * 17 + 16, start_y + row * 17 + 16)) /\
  ExtractTiles.tile_box 0 0 (1 * 4 + 2) = (34, 17, 34 + 16, 17 + 16) /\
  ExtractTilesCorrect.tile_box (0 + 2) (0 + 1) = (34, 17, 34 + 16, 17 + 16).
Proof.
  split; [|split; [|split]].
  - intros img start_col start_row cols rows excl w.
    destruct (ExtractTilesCorrectFacts.collect_tiles_yields
                img (ExtractTilesCorrect.mkConfig (start_col, start_row) (cols, rows) excl) w)
      as (w' & Hrun & _).
    eexists _, w'. split; [exact Hrun|]. intros tile.
    rewrite CollectedFacts.elem_of_collected.
    assert (Hbox : forall col row,
               ExtractTilesCorrect.tile_box (start_col + col) (start_row + row)
               = (start_col * 17 + col * 17, start_row * 17 + row * 17,
                  start_col * 17 + col * 17 + 16, start_row * 17 + row * 17 + 16)).
    { intros col row. unfold ExtractTilesCorrect.tile_box, ExtractTilesCorrect.TILE_STEP,
        ExtractTilesCorrect.TILE_SIZE, ExtractTilesCorrect.MARGIN.
      repeat f_equal; lia. }
    split; intros (col & row & Hc & Hr & Hex & ->); exists col, row;
      (repeat split; try done; try lia); by rewrite Hbox.
  - intros start_x start_y col row Hcol Hrow.
    unfold ExtractTiles.tile_box, ExtractTiles.TILE_STEP, ExtractTiles.TILE_SIZE,
      ExtractTiles.MARGIN.
    assert ((row * 4 + col) / 4 = row) as ->
        by (symmetry; apply Z.div_unique with (r := col); lia).
    assert ((row * 4 + col) mod 4 = col) as ->
        by (symmetry; apply Z.mod_unique with (q := row); lia).
    repeat f_equal; lia.
  - reflexivity.
  - reflexivity.
Qed.

Lemma C1_tile_offset_witness :
  ExtractTiles.tile_box 289 425 (3 * 4 + 1)
  = (289 + 1 * 17, 425 + 3 * 17, 289 + 1 * 17 + 16, 425 + 3 * 17 + 16).
Proof.
  apply (proj1 (proj2 C1_tile_offset) 289 425 1 3); lia.
Defined.




(** C3, as stated, fails on the script's own [water] tileset: its 5 x 6 grid
    lies inside a 102 x 119 sheet and 30 tiles are collected, yet the tiles
    extraction keeps and writes are 16, not 30. *)
Lemma C3_counterexample :
  let sheet := PIL.new (102, 119) (71, 165, 141, 255) in
  let water := ExtractTilesCorrect.mkConfig (1, 1) (5, 6) [] in
  let r := ExtractTilesCorrect.extract_one sheet "out" ("water", water)
                                           (mkWorld ∅ ∅ "" []) in
  ExtractTilesCorrect.grid_inside sheet water = true /\
  fst r = Ok tt /\
  printed (snd r)
  = ["Extracting water..."; "  Collected 30 tiles";
     "  Using first 16 tiles for auto-tiling";
     "  Saved 16 individual tiles to: out/water/"; ""] /\
  len (saved (snd r)) = 16 /\
  16 <> 5 * 6.
Proof. vm_compute. repeat split; congruence. Qed.

(** C3 (amended) -- for every grid spec without excluded cells, inside the
    sheet or not, the two loops collect exactly [columns * rows] tiles, each
    a well-formed 16 x 16 image; extraction then keeps the first 16 of them
    when there are at least 16 and all of them otherwise, that is
    [min 16 (columns * rows)] tiles. *)
Theorem C3_collected_count img start_col start_row cols rows w :
  0 <= cols -> 0 <= rows ->
  exists tiles w',
    ExtractTilesCorrect.collect_tiles
      img (ExtractTilesCorrect.mkConfig (start_col, start_row) (cols, rows) []) w
    = (Ok tiles, w') /\
    len tiles = cols * rows /\
    Forall (fun t => PIL.wf t /\ PIL.size t = (16, 16)) tiles /\
    forall w1, exists w2,
      ExtractTilesCorrect.first_16 tiles w1
      = (Ok (if 16 <=? cols * rows then take 16 tiles else tiles), w2) /\
      len (if 16 <=? cols * rows then take 16 tiles else tiles) = Z.min 16 (cols * rows).
Proof.
  intros Hcols Hrows.
  set (cfg := ExtractTilesCorrect.mkConfig (start_col, start_row) (cols, rows) []).
  destruct (ExtractTilesCorrectFacts.collect_tiles_yields img cfg w) as (w' & Hrun & _).
  exists (ExtractTilesCorrect.collected img cfg), w'.
  pose proof (CollectedFacts.len_collected img start_col start_row cols rows Hcols Hrows)
    as Hlen. fold cfg in Hlen.
  repeat split; [done | done | apply CollectedFacts.collected_sizes |].
  intros w1.
  destruct (ExtractTilesCorrectFacts.first_16_yields
              (ExtractTilesCorrect.collected img cfg) w1) as (w2 & Hrun2 & _).
  exists w2. rewrite <- Hlen. split; [exact Hrun2|].
  apply ExtractTilesCorrectFacts.len_kept.
Qed.

Lemma C3_collected_count_witness :
  exists tiles w',
    ExtractTilesCorrect.collect_tiles
      (PIL.new (1, 1) PIL.transparent)
      (ExtractTilesCorrect.mkConfig (1, 1) (5, 6) []) (mkWorld ∅ ∅ "" [])
    = (Ok tiles, w') /\
    len tiles = 5 * 6 /\
    Forall (fun t => PIL.wf t /\ PIL.size t = (16, 16)) tiles /\
    forall w1, exists w2,
      ExtractTilesCorrect.first_16 tiles w1
      = (Ok (if 16 <=? 5 * 6 then take 16 tiles else tiles), w2) /\
      len (if 16 <=? 5 * 6 then take 16 tiles else tiles) = Z.min 16 (5 * 6).
Proof.
  apply (C3_collected_count (PIL.new (1, 1) PIL.transparent) 1 1 5 6); lia.
Defined.









(** C7 -- every tile the three scripts cut out of an image is
    [TILE_SIZE] x [TILE_SIZE], that is 16 x 16, whatever the image, the grid
    and the position: the tiles [extract_tiles_correct.py] collects, the
    tiles [extract_tiles.py] pastes into its strip, and the tiles
    [split_tiles.py] cuts out of a strip. *)
Theorem C7_every_tile_is_16x16 :
  (forall img cfg w, exists tiles w',
      ExtractTilesCorrect.collect_tiles img cfg w = (Ok tiles, w') /\
      Forall (fun t => PIL.size t = (16, 16)) tiles) /\
  (forall img start_x start_y idx,
      PIL.size (PIL.crop img (ExtractTiles.tile_box start_x start_y idx)) = (16, 16)) /\
  (forall img variant,
      PIL.size (PIL.crop img (SplitTiles.variant_box variant)) = (16, 16)) /\
  ExtractTilesCorrect.TILE_SIZE = 16 /\ ExtractTiles.TILE_SIZE = 16 /\
  SplitTiles.TILE_SIZE = 16.
Proof.
  split; [|split; [|split]].
  - intros img cfg w.
    destruct (ExtractTilesCorrectFacts.collect_tiles_yields img cfg w) as (w' & Hrun & _).
    exists (ExtractTilesCorrect.collected img cfg), w'. split; [done|].
    eapply Forall_impl; [apply CollectedFacts.collected_sizes|].
    by intros t [_ Ht].
  - intros img start_x start_y idx. unfold ExtractTiles.tile_box.
    rewrite PILFacts.size_crop. unfold ExtractTiles.TILE_SIZE. f_equal; lia.
  - intros img variant. unfold SplitTiles.variant_box.
    rewrite PILFacts.size_crop. unfold SplitTiles.TILE_SIZE. f_equal; lia.
  - done.
Qed.

(** C8, as stated, fails on the exit status: with no sheet on disk both
    extraction scripts report the missing file and return normally, so the
    interpreter exits with status 0, not with a non-zero status. *)
Lemma C8_counterexample :
  let w := mkWorld ∅ ∅ "/home/dev/collabcanvas" [] in
  fst (run_script ExtractTilesCorrect.main w) = 0 /\
  printed (snd (run_script ExtractTilesCorrect.main w))
  = ["Error: Source image not found: roguelikeSheet_transparent.png"] /\
  fst (run_script ExtractTiles.main w) = 0 /\
  ~ (fst (run_script ExtractTilesCorrect.main w) <> 0).
Proof. vm_compute. repeat split; congruence. Qed.

(** C8 (amended) -- when the source image is missing, both extraction
    scripts report it on the console, touch nothing on disk, raise no
    exception, and end with exit status 0. *)
Theorem C8_missing_source_reported w :
  missing "roguelikeSheet_transparent.png" w ->
  run_script ExtractTilesCorrect.main w
  = (0, log (Printed "Error: Source image not found: roguelikeSheet_transparent.png") w) /\
  exists w',
    run_script ExtractTiles.main w = (0, w') /\
    files w' = files w /\ dirs w' = dirs w /\
    trace w'
    = trace w ++
      [Printed "Kenney Micro Roguelike Tile Extractor";
       Printed (str_times "=" 50);
       Printed (nl +:+ "❌ Error: Source image not found: roguelikeSheet_transparent.png");
       Printed (nl +:+ "Current directory: " +:+ cwd w);
       Printed (nl +:+ "Please:");
       Printed "1. Save the Kenney sprite sheet as 'roguelikeSheet_transparent.png'";
       Printed "2. Place it in the collabcanvas directory";
       Printed "3. Run this script again"].
Proof.
  intros Hmiss. split.
  - unfold run_script, ExtractTilesCorrect.main, ExtractTilesCorrect.extract_tileset.
    by rewrite ExtractTilesCorrectRuns.extract_tileset_missing.
  - destruct Hmiss as [Hf Hd].
    unfold run_script, ExtractTiles.main.
    unfold bind at 1. unfold print at 1.
    unfold bind at 1. unfold print at 1.
    unfold bind at 1. unfold os.path.exists_.
    cbn [files dirs log].
    rewrite Hf. rewrite bool_decide_false by (by intros [? ?]).
    rewrite bool_decide_false by done. cbn [orb negb].
    eexists. split; [reflexivity|]. cbn. rewrite <- !app_assoc. done.
Qed.

Lemma C8_missing_source_reported_witness :
  let w := mkWorld ∅ ∅ "/home/dev/collabcanvas" [] in
  run_script ExtractTilesCorrect.main w
  = (0, log (Printed "Error: Source image not found: roguelikeSheet_transparent.png") w).
Proof.
  intros w. apply (C8_missing_source_reported w).
  split; [reflexivity | apply not_elem_of_empty].
Defined.





(** * Further properties of the scripts *)

(** ** The disk after a run *)

Lemma write_all_app l1 l2 fs : write_all (l1 ++ l2) fs = write_all l2 (write_all l1 fs).
Proof. unfold write_all. apply fold_left_app. Qed.




Section Stores.

Lemma stores_same {A} (m : Py A) :
  (forall w o w', m w = (o, w') -> w' = w) -> stores m.
Proof.
  intros Hm w o w' Hrun. rewrite (Hm _ _ _ Hrun). exists [].
  rewrite app_nil_r. split; [done|]. split; [done|]. simpl.
  by rewrite union_empty_l_L.
Qed.

Lemma stores_ret {A} (a : A) : stores (ret a).
Proof. apply stores_same. by intros w o w' [= _ <-]. Qed.

Lemma stores_raise {A} e : stores (@raise A e).
Proof. apply stores_same. by intros w o w' [= _ <-]. Qed.

Lemma stores_print line : stores (print line).
Proof.
  intros w o w' [= _ <-]. exists [Printed line].
  split; [done|]. split; [done|]. simpl. by rewrite union_empty_l_L.
Qed.

Lemma stores_exists p : stores (os.path.exists_ p).
Proof. apply stores_same. by intros w o w' [= _ <-]. Qed.

Lemma stores_getcwd : stores os.getcwd.
Proof. apply stores_same. by intros w o w' [= _ <-]. Qed.

Lemma stores_open p : stores (Image.open p).
Proof.
  apply stores_same. intros w o w'. unfold Image.open.
  destruct (files w !! p); [|case_bool_decide]; by intros [= _ <-].
Qed.

Lemma stores_getitem {A} (l : list A) i : stores (getitem l i).
Proof.
  apply stores_same. intros w o w'. unfold getitem.
  destruct (_ <? 0); [by intros [= _ <-]|].
  destruct (l !! _); by intros [= _ <-].
Qed.

Lemma stores_save im p : stores (Image.save im p).
Proof.
  intros w o w' [= _ <-]. exists [Saved p im].
  split; [done|]. split; [done|]. simpl. by rewrite union_empty_l_L.
Qed.

Lemma stores_makedirs d exist_ok : stores (os.makedirs d exist_ok).
Proof.
  intros w o w'. unfold os.makedirs.
  repeat case_bool_decide; try destruct exist_ok; intros [= _ <-];
    try (exists []; rewrite app_nil_r; split; [done|]; split; [done|];
         simpl; by rewrite union_empty_l_L).
  all: exists [MadeDirs d]; split; [done|]; split; [done|]; simpl;
    by rewrite union_empty_r_L.
Qed.

Lemma stores_bind {A B} (m : Py A) (k : A -> Py B) :
  stores m -> (forall a, stores (k a)) -> stores (bind m k).
Proof.
  intros Hm Hk w o w'. unfold bind. destruct (m w) as [[a|e] w1] eqn:Hrun.
  - intros Hrun2. destruct (Hm _ _ _ Hrun) as (e1 & Ht1 & Hf1 & Hd1).
    destruct (Hk a _ _ _ Hrun2) as (e2 & Ht2 & Hf2 & Hd2).
    exists (e1 ++ e2). split; [by rewrite Ht2, Ht1, app_assoc|].
    unfold saved_in, made_in in *. rewrite !omap_app. split.
    + by rewrite write_all_app, <- Hf1.
    + rewrite Hd2, Hd1, list_to_set_app_L.
      rewrite (assoc_L (∪)). f_equal. apply (comm_L (∪)).
  - intros [= <- <-]. by eapply Hm.
Qed.

Lemma stores_for {A} (l : list A) (body : A -> Py unit) :
  (forall x, stores (body x)) -> stores (for_ l body).
Proof.
  intros Hbody. induction l as [|x l IH]; simpl; [apply stores_ret|].
  by apply stores_bind.
Qed.

Lemma stores_for_with {A S} (l : list A) (s : S) (body : S -> A -> Py S) :
  (forall s x, stores (body s x)) -> stores (for_with l s body).
Proof.
  intros Hbody. revert s. induction l as [|x l IH]; intros s; simpl; [apply stores_ret|].
  apply stores_bind; [apply Hbody | apply IH].
Qed.

(** What [yields] says about the saved files carries over to the disk. *)
Lemma yields_disk {A} (m : Py A) w o l :
  stores m -> yields m w o l ->
  exists w', m w = (o, w') /\ saved w' = saved w ++ l /\
             files w' = write_all l (files w).
Proof.
  intros Hst (w' & Hrun & Hs). exists w'. split; [done|]. split; [done|].
  destruct (Hst _ _ _ Hrun) as (evs & Ht & Hf & _).
  assert (l = saved_in evs) as ->; [|done].
  unfold saved, saved_in in *. rewrite Ht, omap_app in Hs.
  by apply app_inv_head in Hs.
Qed.

End Stores.

Ltac stores_auto :=
  repeat match goal with
    | |- stores (bind _ _) => apply stores_bind; [|intros ?]
    | |- stores (for_ _ _) => apply stores_for; intros ?
    | |- stores (for_with _ _ _) => apply stores_for_with; intros ? ?
    | |- stores (ret _) => apply stores_ret
    | |- stores (raise _) => apply stores_raise
    | |- stores (print _) => apply stores_print
    | |- stores (os.path.exists_ _) => apply stores_exists
    | |- stores os.getcwd => apply stores_getcwd
    | |- stores (Image.open _) => apply stores_open
    | |- stores (Image.save _ _) => apply stores_save
    | |- stores (os.makedirs _ _) => apply stores_makedirs
    | |- stores (getitem _ _) => apply stores_getitem
    | |- stores (if ?b then _ else _) => destruct b
    | |- stores (match ?p with (_, _) => _ end) => destruct p
    end.






(** ** The directories a run creates *)

Section Builds.
Context (Q : string -> Prop).











End Builds.



(** ** How a computation ends *)

Lemma getpixel_inside im x y w :
  0 <= x < PIL.width im -> 0 <= y < PIL.height im ->
  Pixels.getpixel im (x, y) w = (Ok (PIL.pixel_at im x y), w).
Proof.
  intros Hx Hy. unfold Pixels.getpixel.
  replace (x <? 0) with false by lia. replace (y <? 0) with false by lia.
  unfold PIL.inside.
  replace ((0 <=? x) && (x <? PIL.width im) && (0 <=? y) && (y <? PIL.height im))
    with true by (symmetry; repeat (apply andb_true_intro; split); lia).
  done.
Qed.

Lemma getpixel_outside im x y w :
  0 <= x -> 0 <= y -> PIL.width im <= x \/ PIL.height im <= y ->
  Pixels.getpixel im (x, y) w = (Raise IndexError, w).
Proof.
  intros Hx Hy Hout. unfold Pixels.getpixel.
  replace (x <? 0) with false by lia. replace (y <? 0) with false by lia.
  unfold PIL.inside.
  replace ((0 <=? x) && (x <? PIL.width im) && (0 <=? y) && (y <? PIL.height im))
    with false; [done|].
  symmetry. rewrite !andb_false_iff. lia.
Qed.

Lemma getpixel_same_world im xy w o w' : Pixels.getpixel im xy w = (o, w') -> w' = w.
Proof.
  destruct xy as [x y]. unfold Pixels.getpixel.
  destruct (PIL.inside _ _ _); by intros [= _ <-].
Qed.

Section Endings.

Lemma safe_ret {A} (a : A) : safe (ret a).
Proof. intros w. by exists a, w. Qed.

Lemma safe_print line : safe (print line).
Proof. intros w. by eexists _, _. Qed.

Lemma safe_save im p : safe (Image.save im p).
Proof. intros w. by eexists _, _. Qed.

Lemma safe_bind {A B} (m : Py A) (k : A -> Py B) :
  safe m -> (forall a, safe (k a)) -> safe (bind m k).
Proof.
  intros Hm Hk w. destruct (Hm w) as (a & w1 & Hrun).
  destruct (Hk a w1) as (b & w2 & Hrun2). exists b, w2. unfold bind. by rewrite Hrun.
Qed.

Lemma safe_for {A} (l : list A) (body : A -> Py unit) :
  (forall x, x ∈ l -> safe (body x)) -> safe (for_ l body).
Proof.
  induction l as [|x l IH]; intros Hbody; simpl; [apply safe_ret|].
  apply safe_bind; [apply Hbody; by left|].
  intros _. apply IH. intros y Hy. apply Hbody. by right.
Qed.

Lemma safe_for_with {A S} (l : list A) (s : S) (body : S -> A -> Py S) :
  (forall s x, x ∈ l -> safe (body s x)) -> safe (for_with l s body).
Proof.
  revert s. induction l as [|x l IH]; intros s Hbody; simpl; [apply safe_ret|].
  apply safe_bind; [apply Hbody; by left|].
  intros s'. apply IH. intros s'' y Hy. apply Hbody. by right.
Qed.

Lemma safe_getpixel im x y :
  0 <= x < PIL.width im -> 0 <= y < PIL.height im -> safe (Pixels.getpixel im (x, y)).
Proof. intros Hx Hy w. eexists _, w. by apply getpixel_inside. Qed.

Lemma fails_getpixel im x y :
  0 <= x -> 0 <= y -> PIL.width im <= x \/ PIL.height im <= y ->
  fails IndexError (Pixels.getpixel im (x, y)).
Proof. intros Hx Hy Hout w. exists w. by apply getpixel_outside. Qed.

Lemma fails_bind {A B} e (m : Py A) (k : A -> Py B) : fails e m -> fails e (bind m k).
Proof. intros Hm w. destruct (Hm w) as (w1 & Hrun). exists w1. unfold bind. by rewrite Hrun. Qed.

Lemma fails_then {A B} e (m : Py A) (k : A -> Py B) :
  safe_or e m -> (forall a, fails e (k a)) -> fails e (bind m k).
Proof.
  intros Hm Hk w. unfold bind.
  destruct (Hm w) as [(a & w1 & Hrun) | (w1 & Hrun)]; rewrite Hrun.
  - apply Hk.
  - by exists w1.
Qed.

Lemma safe_or_safe {A} e (m : Py A) : safe m -> safe_or e m.
Proof. intros Hm w. left. apply Hm. Qed.

Lemma safe_or_fails {A} e (m : Py A) : fails e m -> safe_or e m.
Proof. intros Hm w. right. apply Hm. Qed.

Lemma safe_or_bind {A B} e (m : Py A) (k : A -> Py B) :
  safe_or e m -> (forall a, safe_or e (k a)) -> safe_or e (bind m k).
Proof.
  intros Hm Hk w. unfold bind.
  destruct (Hm w) as [(a & w1 & Hrun) | (w1 & Hrun)]; rewrite Hrun.
  - apply Hk.
  - right. by exists w1.
Qed.

Lemma safe_or_for {A} e (l : list A) (body : A -> Py unit) :
  (forall x, safe_or e (body x)) -> safe_or e (for_ l body).
Proof.
  intros Hbody. induction l as [|x l IH]; simpl; [apply safe_or_safe, safe_ret|].
  by apply safe_or_bind.
Qed.

Lemma safe_or_getpixel im xy : safe_or IndexError (Pixels.getpixel im xy).
Proof.
  intros w. destruct xy as [x y]. unfold Pixels.getpixel.
  destruct (PIL.inside _ _ _); [left; by eexists _, _ | right; by eexists].
Qed.

(** A loop fails as soon as one of its rounds does. *)
Lemma fails_for {A} e (l : list A) (body : A -> Py unit) x :
  x ∈ l -> fails e (body x) -> (forall y, safe_or e (body y)) -> fails e (for_ l body).
Proof.
  intros Hx Hfail Hall. induction l as [|y l IH]; [by apply elem_of_nil in Hx|].
  simpl. apply elem_of_cons in Hx as [<- | Hx].
  - by apply fails_bind.
  - apply fails_then; [apply Hall|]. intros _. by apply IH.
Qed.

End Endings.

(** ** [extract_tiles_correct.py] *)

Lemma lookup_of_nth {A} (l : list A) (i : nat) (d : A) :
  (i < length l)%nat -> l !! i = Some (nth i l d).
Proof. intros Hi. destruct (nth_lookup_or_length l i d); [done|lia]. Qed.


(** X1 -- the tiles are collected row by row: when no cell is excluded, the
    tile at index [row * cols + col] of the collected list is the crop of
    the cell in column [col] and row [row] of the grid. *)
Theorem X1_collected_row_major img start_col start_row cols rows w col row :
  0 <= col < cols -> 0 <= row < rows ->
  exists tiles w',
    ExtractTilesCorrect.collect_tiles
      img (ExtractTilesCorrect.mkConfig (start_col, start_row) (cols, rows) []) w
    = (Ok tiles, w') /\
    tiles !! Z.to_nat (row * cols + col)
    = Some (PIL.crop img (ExtractTilesCorrect.tile_box (start_col + col) (start_row + row))).
Proof.
  intros Hcol Hrow.
  set (cfg := ExtractTilesCorrect.mkConfig (start_col, start_row) (cols, rows) []).
  destruct (ExtractTilesCorrectFacts.collect_tiles_yields img cfg w) as (w' & Hrun & _).
  exists (ExtractTilesCorrect.collected img cfg), w'. split; [done|].
  pose proof (CollectedFacts.len_collected img start_col start_row cols rows) as Hlen.
  fold cfg in Hlen. unfold len in Hlen.
  rewrite (lookup_of_nth _ _ (PIL.new (0, 0) PIL.transparent)) by nia. f_equal.
  unfold cfg, ExtractTilesCorrect.collected; simpl.
  replace (Z.to_nat (row * cols + col))
    with (Z.to_nat row * Z.to_nat cols + Z.to_nat col)%nat by nia.
  rewrite (PILFacts.nth_rows _ _ (Z.to_nat cols)) with (y := row).
  - rewrite flat_map_singleton.
    rewrite (nth_indep _ _ (PIL.crop img (ExtractTilesCorrect.tile_box (start_col + 0)
                                                                     (start_row + row))))
      by (rewrite length_map, range_length; lia).
    rewrite (map_nth (fun c => PIL.crop img (ExtractTilesCorrect.tile_box (start_col + c)
                                                                      (start_row + row)))).
    do 3 f_equal.
    rewrite (nth_lookup_Some _ _ _ col); [done|]. by apply range_lookup.
  - intros y. by rewrite flat_map_singleton, length_map, range_length.
  - by apply range_lookup.
  - lia.
Qed.

Lemma X1_collected_row_major_witness :
  exists tiles w',
    ExtractTilesCorrect.collect_tiles
      (PIL.new (1, 1) PIL.transparent)
      (ExtractTilesCorrect.mkConfig (1, 7) (5, 12) []) (mkWorld ∅ ∅ "" [])
    = (Ok tiles, w') /\
    tiles !! Z.to_nat (3 * 5 + 2)
    = Some (PIL.crop (PIL.new (1, 1) PIL.transparent)
                     (ExtractTilesCorrect.tile_box (1 + 2) (7 + 3))).
Proof.
  apply (X1_collected_row_major (PIL.new (1, 1) PIL.transparent) 1 7 5 12
           (mkWorld ∅ ∅ "" []) 2 3); lia.
Defined.










(** ** [extract_tiles.py] *)

(** X6 -- the strip [extract_tiles.py] builds for a 4 x 4 grid is a
    well-formed 256 x 16 image without the margins of the sheet: its pixel
    [(x, y)] is the sheet's pixel [(x mod 16, y)] of tile [x / 16], that is
    of the cell in column [(x / 16) mod 4] and row [(x / 16) / 4] of the
    grid (transparent black where that lies off the sheet). *)
Theorem X6_strip_pixels img start_x start_y x y :
  0 <= x < 256 -> 0 <= y < 16 ->
  let row_image := ExtractTiles.make_row img start_x start_y in
  PIL.wf row_image /\
  PIL.size row_image = (256, 16) /\
  PIL.pixel_at row_image x y
  = PIL.pixel_at img (start_x + ((x / 16) mod 4) * 17 + x mod 16)
                     (start_y + ((x / 16) / 4) * 17 + y).
Proof.
  intros Hx Hy row_image.
  set (tile_of := fun idx => PIL.crop img (ExtractTiles.tile_box start_x start_y idx)).
  assert (Hsz : forall idx, 0 <= idx < 16 -> PIL.size (tile_of idx) = (16, 16)).
  { intros idx _. unfold tile_of, ExtractTiles.tile_box, ExtractTiles.TILE_SIZE.
    rewrite PILFacts.size_crop. f_equal; lia. }
  destruct (StripFacts.paste_prefix tile_of 16) as [Hsize Hpx]; [lia | done |].
  change (Z.of_nat 16) with 16 in *.
  split; [|split].
  - unfold row_image, ExtractTiles.make_row, ExtractTiles.paste_row.
    change 16 with (15 + 1) at 1. rewrite StripFacts.range_succ, fold_left_app by lia.
    cbn [fold_left]. unfold PIL.paste. apply PILFacts.wf_raster.
  - exact Hsize.
  - unfold row_image, ExtractTiles.make_row, ExtractTiles.paste_row. fold tile_of.
    rewrite Hpx by lia. replace (x <? 16 * 16) with true by lia.
    unfold tile_of, ExtractTiles.tile_box, ExtractTiles.TILE_STEP,
      ExtractTiles.TILE_SIZE, ExtractTiles.MARGIN, PIL.crop.
    rewrite PILFacts.pixel_at_raster.
    + f_equal; lia.
    + pose proof (Z.mod_pos_bound x 16). lia.
    + lia.
Qed.

Lemma X6_strip_pixels_witness :
  let img := PIL.mkImage 1 1 [(9, 9, 9, 255)] in
  let row_image := ExtractTiles.make_row img 0 0 in
  PIL.wf row_image /\
  PIL.size row_image = (256, 16) /\
  PIL.pixel_at row_image 0 0
  = PIL.pixel_at img (0 + ((0 / 16) mod 4) * 17 + 0 mod 16) (0 + ((0 / 16) / 4) * 17 + 0).
Proof.
  intros img. apply (X6_strip_pixels img 0 0 0 0); lia.
Defined.

(** ** [split_tiles.py] *)



Lemma missing_log p e w : missing p w -> missing p (log e w).
Proof. by intros [? ?]. Qed.

(** X8 -- when all four strips are missing, [split_tiles.py] reports each
    of them, writes nothing and creates no directory, and nevertheless ends
    with the line "[SUCCESS] All tiles split successfully!" and exit
    status 0. *)
Theorem X8_all_strips_missing w :
  (forall t, t ∈ SplitTiles.TILESETS ->
             missing (os.path.join "public/assets/tilesets" (t +:+ ".png")) w) ->
  exists w',
    run_script SplitTiles.main w = (0, w') /\
    files w' = files w /\ dirs w' = dirs w /\
    trace w'
    = trace w ++
      [Printed "Splitting sprite sheets into individual tiles...";
       Printed (str_times "=" 50);
       Printed "Error: public/assets/tilesets/water.png not found";
       Printed "Error: public/assets/tilesets/grass.png not found";
       Printed "Error: public/assets/tilesets/dirt.png not found";
       Printed "Error: public/assets/tilesets/stone.png not found";
       Printed (nl +:+ str_times "=" 50);
       Printed "[SUCCESS] All tiles split successfully!"].
Proof.
  intros Hmiss.
  assert (Hw : missing (os.path.join "public/assets/tilesets" ("water" +:+ ".png")) w)
    by (apply Hmiss; repeat constructor).
  assert (Hg : missing (os.path.join "public/assets/tilesets" ("grass" +:+ ".png")) w)
    by (apply Hmiss; repeat constructor).
  assert (Hd : missing (os.path.join "public/assets/tilesets" ("dirt" +:+ ".png")) w)
    by (apply Hmiss; repeat constructor).
  assert (Hs : missing (os.path.join "public/assets/tilesets" ("stone" +:+ ".png")) w)
    by (apply Hmiss; repeat constructor).
  unfold run_script, SplitTiles.main, SplitTiles.main_with, SplitTiles.TILESETS.
  unfold bind at 1. unfold print at 1.
  unfold bind at 1. unfold print at 1.
  cbn [for_].
  unfold bind at 1. unfold bind at 1.
  rewrite SplitTilesFacts.split_tileset_missing by (by do 2 apply missing_log).
  unfold bind at 1.
  rewrite SplitTilesFacts.split_tileset_missing by (by do 3 apply missing_log).
  unfold bind at 1.
  rewrite SplitTilesFacts.split_tileset_missing by (by do 4 apply missing_log).
  unfold bind at 1.
  rewrite SplitTilesFacts.split_tileset_missing by (by do 5 apply missing_log).
  eexists. split; [reflexivity|]. cbn. rewrite <- !app_assoc. done.
Qed.

Lemma X8_all_strips_missing_witness :
  let w := mkWorld ∅ ∅ "" [] in
  exists w',
    run_script SplitTiles.main w = (0, w') /\
    files w' = files w /\ dirs w' = dirs w /\
    trace w'
    = trace w ++
      [Printed "Splitting sprite sheets into individual tiles...";
       Printed (str_times "=" 50);
       Printed "Error: public/assets/tilesets/water.png not found";
       Printed "Error: public/assets/tilesets/grass.png not found";
       Printed "Error: public/assets/tilesets/dirt.png not found";
       Printed "Error: public/assets/tilesets/stone.png not found";
       Printed (nl +:+ str_times "=" 50);
       Printed "[SUCCESS] All tiles split successfully!"].
Proof.
  intros w. apply (X8_all_strips_missing w).
  intros t Ht. split; [reflexivity | apply not_elem_of_empty].
Defined.

Lemma touches_mono (P Q : string -> Prop) w w' :
  (forall p, P p -> Q p) -> touches P w w' -> touches Q w w'.
Proof. intros HPQ [Ht Hf]. split; [done|]. intros p Hp. apply Hf. intros HP. by apply Hp, HPQ. Qed.

Lemma frames_mono {A} (P Q : string -> Prop) (m : Py A) :
  (forall p, P p -> Q p) -> frames P m -> frames Q m.
Proof. intros HPQ Hm w o w' Hrun. eapply touches_mono; [done|]. by eapply Hm. Qed.

(** X9 -- whatever is on disk and however the run ends, [split_tiles.py]
    changes nothing outside the four tileset directories and their
    [<name>_NN.png] files: every other path, the four strips it reads
    among them, holds what it held before, and no other directory
    appears. *)
Theorem X9_split_touches_only_its_tiles w o w' p :
  SplitTiles.main w = (o, w') ->
  (forall t, t ∈ SplitTiles.TILESETS ->
             ~ SplitTiles.output_of t "public/assets/tilesets" p) ->
  files w' !! p = files w !! p /\ (p ∈ dirs w' <-> p ∈ dirs w).
Proof.
  intros Hrun Hp.
  assert (Hframes : frames (fun q => exists t, t ∈ SplitTiles.TILESETS /\
                                SplitTiles.output_of t "public/assets/tilesets" q)
                           SplitTiles.main).
  { unfold SplitTiles.main, SplitTiles.main_with.
    apply frames_bind; [apply frames_print|]. intros _.
    apply frames_bind; [apply frames_print|]. intros _.
    apply frames_bind.
    - apply frames_for. intros t Ht.
      apply (frames_mono (SplitTiles.output_of t "public/assets/tilesets")).
      + intros q Hq. by exists t.
      + apply SplitTilesFrame.split_tileset_frames.
    - intros _. apply frames_bind; [apply frames_print|]. intros _. apply frames_print. }
  destruct (Hframes w o w' Hrun) as [_ Hkeep].
  apply Hkeep. intros (t & Ht & Hout). by apply (Hp t).
Qed.

Lemma X9_split_touches_only_its_tiles_witness :
  let strip := PIL.new (256, 16) (9, 9, 9, 255) in
  let w := mkWorld {[ "public/assets/tilesets/grass.png" := strip ]} ∅ "" [] in
  files (snd (SplitTiles.main w)) !! "public/assets/tilesets/grass.png"
  = files w !! "public/assets/tilesets/grass.png".
Proof.
  intros strip w.
  apply (X9_split_touches_only_its_tiles w (fst (SplitTiles.main w))
           (snd (SplitTiles.main w)) "public/assets/tilesets/grass.png").
  - by destruct (SplitTiles.main w).
  - intros t Ht. apply (SplitTilesFrame.clash_free_spec SplitTiles.TILESETS
                          "public/assets/tilesets" "public/assets/tilesets" t "grass");
      [reflexivity | done | repeat constructor].
Defined.

(** ** [extract_tiles.py], then [split_tiles.py] *)










(** ** The probing scripts *)

Ltac in_range :=
  repeat match goal with
         | H : _ ∈ range _ |- _ => apply elem_of_range in H
         end.

Ltac safe_auto :=
  repeat match goal with
    | |- safe (bind (Pixels.getpixel _ _) _) =>
        apply safe_bind; [apply safe_getpixel; in_range; lia | intros ?]
    | |- safe (bind _ _) => apply safe_bind; [|intros ?]
    | |- safe (print _) => apply safe_print
    | |- safe (ret _) => apply safe_ret
    | |- safe (for_ _ _) => apply safe_for; intros ? ?
    | |- safe (for_with _ _ _) => apply safe_for_with; intros ? ? ?
    | |- safe (if ?b then _ else _) => destruct b
    end.

Ltac safe_or_auto :=
  repeat match goal with
    | |- safe_or _ (bind _ _) => apply safe_or_bind; [|intros ?]
    | |- safe_or _ (Pixels.getpixel _ _) => apply safe_or_getpixel
    | |- safe_or _ (print _) => apply safe_or_safe, safe_print
    | |- safe_or _ (ret _) => apply safe_or_safe, safe_ret
    | |- safe_or _ (for_ _ _) => apply safe_or_for; intros ?
    | |- safe_or _ (if ?b then _ else _) => destruct b
    end.

(** Run the [Image.open] at the head of a script whose sheet is there. *)
Ltac open_sheet Hsrc :=
  unfold bind at 1; unfold Image.open; rewrite Hsrc; cbv beta iota.

(** Skip what comes before the loop that fails. *)
Ltac fails_skip :=
  match goal with
  | |- fails _ (bind _ _) => apply fails_then; [safe_or_auto | intros ?; cbv beta]
  end.

(** X11 -- [inspect_sprites.py] reads the centre pixels of the cells in
    columns 0..9 and rows 0..3 of the sheet, so with the sheet there it runs
    to its end exactly when the sheet is at least 162 pixels wide and 60
    pixels high; on any smaller sheet it stops with an uncaught
    [IndexError]. *)
Theorem X11_inspect_sprites_sheet_size img w :
  files w !! "roguelikeSheet_transparent.png" = Some img ->
  (162 <= PIL.width img /\ 60 <= PIL.height img ->
   exists w', InspectSprites.main w = (Ok tt, w')) /\
  (PIL.width img < 162 \/ PIL.height img < 60 ->
   exists w', InspectSprites.main w = (Raise IndexError, w')).
Proof.
  intros Hsrc. unfold InspectSprites.main. split.
  - intros [Hw Hh]. open_sheet Hsrc.
    match goal with |- exists w', ?m w = _ => assert (Hsafe : safe m) end.
    { safe_auto.
      - unfold InspectSprites.probe_cell. safe_auto.
      - unfold InspectSprites.probe_green. safe_auto. }
    destruct (Hsafe w) as ([] & w' & Hrun). by exists w'.
  - intros Hsmall. open_sheet Hsrc.
    assert (Hcell : forall row col, safe_or IndexError (InspectSprites.probe_cell img row col)).
    { intros row col. unfold InspectSprites.probe_cell. safe_or_auto. }
    assert (Hgreen : forall row col, safe_or IndexError (InspectSprites.probe_green img row col)).
    { intros row col. unfold InspectSprites.probe_green. safe_or_auto. }
    match goal with |- exists w', ?m w = _ => assert (Hfails : fails IndexError m) end.
    { do 3 fails_skip. fails_skip; [apply Hcell|]. do 2 fails_skip.
      apply (fails_for _ _ _ 3); [by apply elem_of_range | |].
      - apply (fails_for _ _ _ 9); [by apply elem_of_range | |].
        + unfold InspectSprites.probe_green. apply fails_bind, fails_getpixel; lia.
        + intros col. apply Hgreen.
      - intros row. apply safe_or_for. intros col. apply Hgreen. }
    apply Hfails.
Qed.

Lemma X11_inspect_sprites_sheet_size_witness :
  let img := PIL.new (100, 100) (9, 9, 9, 255) in
  let w := mkWorld {[ "roguelikeSheet_transparent.png" := img ]} ∅ "" [] in
  exists w', InspectSprites.main w = (Raise IndexError, w').
Proof.
  intros img w.
  assert (H : files w !! "roguelikeSheet_transparent.png" = Some img) by reflexivity.
  apply (proj2 (X11_inspect_sprites_sheet_size img w H)).
  left. by vm_compute.
Defined.

(** X12 -- [find_grass.py] probes up to pixel (195, 59): with the sheet
    there it runs to its end on every sheet of at least 196 x 60 pixels,
    and it stops with an uncaught [IndexError] on every sheet narrower than
    145 pixels or lower than 60 pixels. *)
Theorem X12_find_grass_sheet_size img w :
  files w !! "roguelikeSheet_transparent.png" = Some img ->
  (196 <= PIL.width img /\ 60 <= PIL.height img ->
   exists w', FindGrass.main w = (Ok tt, w')) /\
  (PIL.width img < 145 \/ PIL.height img < 60 ->
   exists w', FindGrass.main w = (Raise IndexError, w')).
Proof.
  intros Hsrc. unfold FindGrass.main. split.
  - intros [Hw Hh]. open_sheet Hsrc.
    match goal with |- exists w', ?m w = _ => assert (Hsafe : safe m) end.
    { safe_auto.
      - unfold FindGrass.probe_cell. safe_auto.
      - match goal with
        | H : ?pos ∈ FindGrass.test_positions |- _ =>
            destruct pos as [[start_x start_y] label];
            assert (Hxy : 0 <= start_x <= 136 /\ start_y = 0);
            [unfold FindGrass.test_positions in H;
             repeat (apply elem_of_cons in H as [[= -> -> ->] | H]); try lia;
             by apply elem_of_nil in H|]
        end.
        unfold FindGrass.probe_position, FindGrass.check_grid. safe_auto. }
    destruct (Hsafe w) as ([] & w' & Hrun). by exists w'.
  - intros Hsmall. open_sheet Hsrc.
    assert (Hcell : forall row col, safe_or IndexError (FindGrass.probe_cell img row col)).
    { intros row col. unfold FindGrass.probe_cell. safe_or_auto. }
    match goal with |- exists w', ?m w = _ => assert (Hfails : fails IndexError m) end.
    { fails_skip. apply fails_bind.
      apply (fails_for _ _ _ 3); [by apply elem_of_range | |].
      - apply (fails_for _ _ _ 3); [by apply elem_of_range | |].
        + unfold FindGrass.probe_cell. apply fails_bind, fails_getpixel; lia.
        + intros col. apply Hcell.
      - intros row. apply safe_or_for. intros col. apply Hcell. }
    apply Hfails.
Qed.

Lemma X12_find_grass_sheet_size_witness :
  let img := PIL.new (100, 100) (9, 9, 9, 255) in
  let w := mkWorld {[ "roguelikeSheet_transparent.png" := img ]} ∅ "" [] in
  exists w', FindGrass.main w = (Raise IndexError, w').
Proof.
  intros img w.
  assert (H : files w !! "roguelikeSheet_transparent.png" = Some img) by reflexivity.
  apply (proj2 (X12_find_grass_sheet_size img w H)).
  left. by vm_compute.
Defined.

(** ** [find_tiles.py] *)

Lemma forallb_flat_map {A B} (p : B -> bool) (f : A -> list B) (l : list A) :
  forallb p (flat_map f l) = forallb (fun x => forallb p (f x)) l.
Proof.
  induction l as [|x l IH]; [done|]. simpl. by rewrite forallb_app, IH.
Qed.

Lemma yields_for_with_in {A T} (l : list A) (s : list T)
      (body : list T -> A -> Py (list T)) (g : A -> list T) w :
  (forall s x w, x ∈ l -> yields (body s x) w (Ok (s ++ g x)) []) ->
  yields (for_with l s body) w (Ok (s ++ flat_map g l)) [].
Proof.
  revert s w. induction l as [|x l IH]; intros s w Hbody; simpl.
  - rewrite app_nil_r. apply yields_ret.
  - change (@nil (string * PIL.Image)) with (@nil (string * PIL.Image) ++ []).
    eapply yields_bind; [apply Hbody; by left|].
    intros w'. rewrite app_assoc. apply IH.
    intros s' y w'' Hy. apply Hbody. by right.
Qed.

(** A loop that collects pixels until one of them makes it [break]. *)
Lemma for_break_collect {A} (ok : PIL.pixel -> bool) (probe : A -> PIL.pixel)
      (l : list A) (body : list PIL.pixel * bool -> A -> Py (list PIL.pixel * bool * bool))
      colors w :
  (forall colors x w, x ∈ l ->
     body (colors, true) x w
     = (Ok (if ok (probe x) then ((colors ++ [probe x], true), false)
            else ((colors, false), true)), w)) ->
  exists colors',
    for_break l (colors, true) body w = (Ok (colors', forallb ok (map probe l)), w) /\
    (forallb ok (map probe l) = true -> colors' = colors ++ map probe l).
Proof.
  revert colors. induction l as [|x l IH]; intros colors Hbody.
  - exists colors. split; [done|]. by rewrite app_nil_r.
  - simpl. unfold bind. rewrite Hbody by left.
    destruct (ok (probe x)); simpl.
    + destruct (IH (colors ++ [probe x])) as (colors' & Hrun & Hall).
      { intros c y w' Hy. apply Hbody. by right. }
      exists colors'. split; [done|]. intros Htrue. rewrite (Hall Htrue).
      by rewrite <- app_assoc.
    + by exists colors.
Qed.

(** The same for a loop whose rounds are such loops and which leaves as
    soon as one of them has. *)
Lemma for_break_rows {A} (ok : PIL.pixel -> bool) (probes : A -> list PIL.pixel)
      (l : list A) (body : list PIL.pixel * bool -> A -> Py (list PIL.pixel * bool * bool))
      colors w :
  (forall colors x w, x ∈ l ->
     exists colors',
       body (colors, true) x w
       = (Ok ((colors', forallb ok (probes x)), negb (forallb ok (probes x))), w) /\
       (forallb ok (probes x) = true -> colors' = colors ++ probes x)) ->
  exists colors',
    for_break l (colors, true) body w
    = (Ok (colors', forallb (fun x => forallb ok (probes x)) l), w) /\
    (forallb (fun x => forallb ok (probes x)) l = true ->
     colors' = colors ++ flat_map probes l).
Proof.
  revert colors. induction l as [|x l IH]; intros colors Hbody.
  - exists colors. split; [done|]. by rewrite app_nil_r.
  - simpl. unfold bind.
    destruct (Hbody colors x w) as (colors1 & Hrun & Hall); [by left|]. rewrite Hrun.
    destruct (forallb ok (probes x)); simpl.
    + rewrite (Hall eq_refl).
      destruct (IH (colors ++ probes x)) as (colors' & Hrun' & Hall').
      { intros c y w' Hy. apply Hbody. by right. }
      exists colors'. split; [done|]. intros Htrue. rewrite (Hall' Htrue).
      by rewrite <- app_assoc.
    + by exists colors1.
Qed.

Module FindTilesFacts.
Import FindTiles.

(** The origins the scan visits keep all 16 probes on the sheet. *)
Lemma origin_in_bounds size start cell :
  start ∈ range2 0 (size / TILE_STEP - 3) -> 0 <= cell < 4 ->
  0 <= start * TILE_STEP + 8 + cell * TILE_STEP < size.
Proof.
  unfold range2, TILE_STEP. rewrite list_elem_of_fmap.
  intros (i & -> & Hi%elem_of_range) Hcell.
  pose proof (Z.mul_div_le size 17). lia.
Qed.

Lemma probe_region_spec img start_col start_row w :
  start_col ∈ range2 0 (PIL.width img / TILE_STEP - 3) ->
  start_row ∈ range2 0 (PIL.height img / TILE_STEP - 3) ->
  exists colors,
    probe_region img start_col start_row w = (Ok (colors, solid img start_col start_row), w) /\
    (solid img start_col start_row = true -> colors = centres img start_col start_row).
Proof.
  intros Hcol Hrow. unfold probe_region, solid, centres.
  rewrite forallb_flat_map.
  apply (for_break_rows has_content
           (fun row => map (centre img start_col start_row row) (range 4))).
  intros colors row w' Hr. apply elem_of_range in Hr.
  destruct (for_break_collect has_content (centre img start_col start_row row) (range 4)
              (fun state col =>
                 let '(colors, has_content) := state in
                 pixel <- Pixels.getpixel img (start_col * TILE_STEP + 8 + col * TILE_STEP,
                                               start_row * TILE_STEP + 8 + row * TILE_STEP);;
                 if Pixels.alpha pixel <? 10 then ret ((colors, false), true)
                 else ret ((colors ++ [pixel], has_content), false))
              colors w') as (colors' & Hrun & Hall).
  { intros c col w'' Hc. apply elem_of_range in Hc. cbv zeta. unfold bind.
    rewrite getpixel_inside by (by apply origin_in_bounds).
    fold (centre img start_col start_row row col). unfold has_content.
    by destruct (Pixels.alpha _ <? 10). }
  exists colors'. split; [|done].
  cbv beta. unfold bind at 1. rewrite Hrun. cbn [snd]. by destruct (forallb _ _).
Qed.

Lemma length_centres img start_col start_row :
  length (centres img start_col start_row) = 16%nat.
Proof. reflexivity. Qed.

Lemma scan_cell_yields img found start_row start_col w :
  start_col ∈ range2 0 (PIL.width img / TILE_STEP - 3) ->
  start_row ∈ range2 0 (PIL.height img / TILE_STEP - 3) ->
  yields (scan_cell img found start_row start_col) w
         (Ok (found ++ if solid img start_col start_row
                       then [(start_col, start_row,
                              avg_color (centres img start_col start_row),
                              color_name (avg_color (centres img start_col start_row)))]
                       else []))
         [].
Proof.
  intros Hcol Hrow. unfold yields, scan_cell. unfold bind at 1.
  destruct (probe_region_spec img start_col start_row w Hcol Hrow) as (colors & -> & Hall).
  destruct (solid img start_col start_row) eqn:Hsolid.
  - rewrite (Hall eq_refl). unfold len. rewrite length_centres. cbn [andb Z.eqb].
    change (Z.of_nat 16 =? 16) with true. cbv iota.
    apply (yields_bind _ _ _ tt [] _ []); [apply yields_print|]. intros w1.
    apply (yields_bind _ _ _ tt [] _ []); [apply yields_print|]. intros w2.
    apply (yields_bind _ _ _ tt [] _ []); [apply yields_print|]. intros w3.
    apply yields_ret.
  - cbn [andb]. rewrite app_nil_r. apply yields_ret.
Qed.

Lemma scan_yields img w : yields (scan img) w (Ok (regions img)) [].
Proof.
  unfold scan, regions. cbn [PIL.size fst snd].
  apply (yields_for_with_in _ [] _
           (fun start_row =>
              flat_map (fun start_col =>
                if solid img start_col start_row
                then [(start_col, start_row, avg_color (centres img start_col start_row),
                       color_name (avg_color (centres img start_col start_row)))]
                else [])
              (range2 0 (PIL.width img / TILE_STEP - 3)))).
  intros found start_row w1 Hrow.
  apply yields_for_with_in. intros found' start_col w2 Hcol.
  by apply scan_cell_yields.
Qed.

End FindTilesFacts.

Lemma stores_getpixel im xy : stores (Pixels.getpixel im xy).
Proof. apply stores_same. intros w o w'. apply getpixel_same_world. Qed.

Lemma stores_for_break {A S} (l : list A) (s : S) (body : S -> A -> Py (S * bool)) :
  (forall s x, stores (body s x)) -> stores (for_break l s body).
Proof.
  intros Hbody. revert s. induction l as [|x l IH]; intros s; simpl; [apply stores_ret|].
  apply stores_bind; [apply Hbody|]. intros [s' b]. destruct b; [apply stores_ret | apply IH].
Qed.

Ltac stores_probe :=
  repeat first
    [ progress stores_auto
    | match goal with
      | |- stores (Pixels.getpixel _ _) => apply stores_getpixel
      | |- stores (for_break _ _ _) => apply stores_for_break; intros ? ?
      end ].

Lemma stores_find_tiles_main : stores FindTiles.main.
Proof.
  unfold FindTiles.main. stores_probe.
  unfold FindTiles.scan. stores_probe.
  unfold FindTiles.scan_cell. stores_probe.
  unfold FindTiles.probe_region. stores_probe.
Qed.

Lemma range2_0 n : range2 0 n = range n.
Proof.
  unfold range2. rewrite Z.sub_0_r. rewrite <- (map_id (range n)) at 2.
  apply map_ext. intros i. lia.
Qed.

Lemma solid_iff img start_col start_row :
  FindTiles.solid img start_col start_row = true <->
  forall row col, 0 <= row < 4 -> 0 <= col < 4 ->
    10 <= Pixels.alpha (PIL.pixel_at img (start_col * 17 + 8 + col * 17)
                                         (start_row * 17 + 8 + row * 17)).
Proof.
  unfold FindTiles.solid, FindTiles.centres. rewrite forallb_forall. split.
  - intros Hall row col Hrow Hcol.
    specialize (Hall (FindTiles.centre img start_col start_row row col)).
    unfold FindTiles.has_content, FindTiles.centre, FindTiles.TILE_STEP in Hall.
    apply negb_true_iff, Z.ltb_ge in Hall; [done|].
    apply list_elem_of_In, elem_of_flat_map. exists row.
    split; [by apply elem_of_range|]. apply list_elem_of_fmap. exists col.
    split; [done | by apply elem_of_range].
  - intros Hall p Hp. apply list_elem_of_In, elem_of_flat_map in Hp as (row & Hrow & Hp).
    apply list_elem_of_fmap in Hp as (col & -> & Hcol).
    apply elem_of_range in Hrow, Hcol.
    unfold FindTiles.has_content, FindTiles.centre, FindTiles.TILE_STEP.
    apply negb_true_iff, Z.ltb_ge. by apply Hall.
Qed.

(** X13 -- [find_tiles.py] never probes a pixel off the sheet: whatever the
    size of the sheet it runs to its end and writes nothing.  The regions
    it finds are exactly the 4 x 4 regions, with origin column below
    [width // 17 - 3] and origin row below [height // 17 - 3], whose 16 cell
    centres all have an alpha of at least 10; each is recorded with the
    average colour of these centres and the name guessed for it. *)
Theorem X13_find_tiles_scan img w :
  files w !! "roguelikeSheet_transparent.png" = Some img ->
  exists found w',
    FindTiles.main w = (Ok found, w') /\
    files w' = files w /\ saved w' = saved w /\
    forall start_col start_row avg name,
      (start_col, start_row, avg, name) ∈ found <->
      0 <= start_col < PIL.width img / 17 - 3 /\
      0 <= start_row < PIL.height img / 17 - 3 /\
      (forall row col, 0 <= row < 4 -> 0 <= col < 4 ->
         10 <= Pixels.alpha (PIL.pixel_at img (start_col * 17 + 8 + col * 17)
                                              (start_row * 17 + 8 + row * 17))) /\
      avg = FindTiles.avg_color (FindTiles.centres img start_col start_row) /\
      name = FindTiles.color_name avg.
Proof.
  intros Hsrc.
  assert (Hyields : yields FindTiles.main w (Ok (FindTiles.regions img)) []).
  { unfold yields, FindTiles.main. unfold bind at 1. unfold Image.open. rewrite Hsrc.
    cbv beta iota.
    apply (yields_bind _ _ _ tt [] _ []); [apply yields_print|]. intros w1.
    apply (yields_bind _ _ _ tt [] _ []); [apply yields_print|]. intros w2.
    apply (yields_bind _ _ _ tt [] _ []); [apply yields_print|]. intros w3.
    apply (yields_bind _ _ _ tt [] _ []); [apply yields_print|]. intros w4.
    apply (yields_bind _ _ _ tt [] _ []); [apply yields_print|]. intros w5.
    apply (yields_bind _ _ _ (FindTiles.regions img) [] _ []);
      [apply FindTilesFacts.scan_yields|]. intros w6.
    apply (yields_bind _ _ _ tt [] _ []); [apply yields_print|]. intros w7.
    apply yields_ret. }
  destruct (yields_disk _ _ _ _ stores_find_tiles_main Hyields) as (w' & Hrun & Hsaved & Hfiles).
  exists (FindTiles.regions img), w'. split; [done|]. split; [done|].
  split; [by rewrite app_nil_r in Hsaved|].
  intros start_col start_row avg name. unfold FindTiles.regions.
  rewrite elem_of_flat_map. setoid_rewrite elem_of_flat_map.
  rewrite !range2_0. unfold FindTiles.TILE_STEP. split.
  - intros (sr & Hsr & sc & Hsc & Hin). apply elem_of_range in Hsr, Hsc.
    destruct (FindTiles.solid img sc sr) eqn:Hsolid; [|by apply elem_of_nil in Hin].
    apply list_elem_of_singleton in Hin as [= -> -> -> ->].
    repeat split; try lia. by apply solid_iff.
  - intros (Hsc & Hsr & Hall & -> & ->).
    exists start_row. split; [by apply elem_of_range|].
    exists start_col. split; [by apply elem_of_range|].
    apply solid_iff in Hall. rewrite Hall. by apply list_elem_of_singleton.
Qed.

Lemma X13_find_tiles_scan_witness :
  let img := PIL.new (5, 5) (9, 9, 9, 255) in
  let w := mkWorld {[ "roguelikeSheet_transparent.png" := img ]} ∅ "" [] in
  exists found w',
    FindTiles.main w = (Ok found, w') /\
    files w' = files w /\ saved w' = saved w /\
    forall start_col start_row avg name,
      (start_col, start_row, avg, name) ∈ found <->
      0 <= start_col < PIL.width img / 17 - 3 /\
      0 <= start_row < PIL.height img / 17 - 3 /\
      (forall row col, 0 <= row < 4 -> 0 <= col < 4 ->
         10 <= Pixels.alpha (PIL.pixel_at img (start_col * 17 + 8 + col * 17)
                                              (start_row * 17 + 8 + row * 17))) /\
      avg = FindTiles.avg_color (FindTiles.centres img start_col start_row) /\
      name = FindTiles.color_name avg.
Proof.
  intros img w.
  assert (H : files w !! "roguelikeSheet_transparent.png" = Some img) by reflexivity.
  apply (X13_find_tiles_scan img w H).
Defined.

Lemma frames_getpixel P im xy : frames P (Pixels.getpixel im xy).
Proof.
  intros w o w' Hrun. rewrite (getpixel_same_world _ _ _ _ _ Hrun). apply touches_refl.
Qed.

Lemma frames_for_with {A S} P (l : list A) (s : S) (body : S -> A -> Py S) :
  (forall s x, frames P (body s x)) -> frames P (for_with l s body).
Proof.
  intros Hbody. revert s. induction l as [|x l IH]; intros s; simpl; [apply frames_ret|].
  apply frames_bind; [apply Hbody | apply IH].
Qed.

Lemma frames_for_break {A S} P (l : list A) (s : S) (body : S -> A -> Py (S * bool)) :
  (forall s x, frames P (body s x)) -> frames P (for_break l s body).
Proof.
  intros Hbody. revert s. induction l as [|x l IH]; intros s; simpl; [apply frames_ret|].
  apply frames_bind; [apply Hbody|]. intros [s' b]. destruct b; [apply frames_ret | apply IH].
Qed.

Ltac frames_auto :=
  repeat match goal with
    | |- frames _ (bind _ _) => apply frames_bind; [|intros ?]
    | |- frames _ (for_ _ _) => apply frames_for; intros ? ?
    | |- frames _ (for_with _ _ _) => apply frames_for_with; intros ? ?
    | |- frames _ (for_break _ _ _) => apply frames_for_break; intros ? ?
    | |- frames _ (ret _) => apply frames_ret
    | |- frames _ (print _) => apply frames_print
    | |- frames _ (Image.open _) => apply frames_open
    | |- frames _ (Pixels.getpixel _ _) => apply frames_getpixel
    | |- frames _ (if ?b then _ else _) => destruct b
    | |- frames _ (match ?p with (_, _) => _ end) => destruct p
    end.

Lemma untouched w w' : touches (fun _ => False) w w' -> files w' = files w /\ dirs w' = dirs w.
Proof.
  intros [_ Hkeep]. split.
  - apply map_eq. intros p. by destruct (Hkeep p) as [Hf _]; [intros []|].
  - apply set_eq. intros p. by destruct (Hkeep p) as [_ Hd]; [intros []|].
Qed.

(** X14 -- the three probing scripts only read: however a run of
    [inspect_sprites.py], [find_grass.py] or [find_tiles.py] ends, also
    with an exception, the files and the directories are those from before
    the run. *)
Theorem X14_probing_scripts_only_read w :
  (forall o w', InspectSprites.main w = (o, w') -> files w' = files w /\ dirs w' = dirs w) /\
  (forall o w', FindGrass.main w = (o, w') -> files w' = files w /\ dirs w' = dirs w) /\
  (forall o w', FindTiles.main w = (o, w') -> files w' = files w /\ dirs w' = dirs w).
Proof.
  split; [|split]; intros o w' Hrun; apply untouched.
  - assert (Hframes : frames (fun _ => False) InspectSprites.main); [|by eapply Hframes].
    unfold InspectSprites.main. frames_auto.
    + unfold InspectSprites.probe_cell. frames_auto.
    + unfold InspectSprites.probe_green. frames_auto.
  - assert (Hframes : frames (fun _ => False) FindGrass.main); [|by eapply Hframes].
    unfold FindGrass.main. frames_auto.
    + unfold FindGrass.probe_cell. frames_auto.
    + unfold FindGrass.probe_position, FindGrass.check_grid. frames_auto.
  - assert (Hframes : frames (fun _ => False) FindTiles.main); [|by eapply Hframes].
    unfold FindTiles.main. frames_auto.
    unfold FindTiles.scan. frames_auto.
    unfold FindTiles.scan_cell. frames_auto.
    unfold FindTiles.probe_region. frames_auto.
Qed.

(** X15 -- the probing scripts and [extract_single_test.py] do not check
    that the sheet exists: when it is missing they stop at [Image.open]
    with an uncaught [FileNotFoundError], exit status 1, having printed
    and written nothing. *)
Theorem X15_unguarded_scripts_crash w :
  missing "roguelikeSheet_transparent.png" w ->
  InspectSprites.main w = (Raise (FileNotFoundError "roguelikeSheet_transparent.png"), w) /\
  FindGrass.main w = (Raise (FileNotFoundError "roguelikeSheet_transparent.png"), w) /\
  FindTiles.main w = (Raise (FileNotFoundError "roguelikeSheet_transparent.png"), w) /\
  ExtractSingleTest.main w
  = (Raise (FileNotFoundError "roguelikeSheet_transparent.png"), w) /\
  run_script ExtractSingleTest.main w = (1, w).
Proof.
  intros [Hf Hd].
  assert (Hopen : Image.open "roguelikeSheet_transparent.png" w
                  = (Raise (FileNotFoundError "roguelikeSheet_transparent.png"), w)).
  { unfold Image.open. rewrite Hf. by rewrite bool_decide_false. }
  unfold run_script, InspectSprites.main, FindGrass.main, FindTiles.main,
    ExtractSingleTest.main.
  repeat split; unfold bind at 1; by rewrite Hopen.
Qed.

Lemma X15_unguarded_scripts_crash_witness :
  let w := mkWorld ∅ ∅ "" [] in
  run_script ExtractSingleTest.main w = (1, w).
Proof.
  intros w. apply (X15_unguarded_scripts_crash w).
  split; [reflexivity | apply not_elem_of_empty].
Defined.


